(** * LocalDockerRunner: a model server runner on a local docker engine

    A shallow embedding of
    [tfx/components/infra_validator/model_server_runners/local_docker_runner.py]
    and the properties of its lifecycle methods ([Start], [WaitUntilRunning],
    [GetEndpoint], [Stop]), of the host port resolution [_find_host_port] and
    of the client construction [_make_docker_client].

    Python dictionaries are finite maps ([gmap]) with string keys, Python
    exceptions are values of [Exn], and everything the runner does to the
    outside world (the clock, the docker engine, the logger) is recorded in a
    log of [Event]s whose answers come from an [Engine] oracle. *)

From Stdlib Require Import ZArith String List Lia.
From stdpp Require Import base option list gmap strings pretty.

Open Scope string_scope.
Open Scope Z_scope.

(** ** Python values *)

(** Keyword argument values handed to [docker.DockerClient]. *)
Inductive PyVal : Type :=
| PyInt (z : Z)
| PyStr (s : string).

(** One host binding record of a published port, such as
    [{'HostIp': '0.0.0.0', 'HostPort': '32769'}]: a dictionary from field names
    to strings.  A record may lack any of its fields. *)
Abbreviation HostBinding := (gmap string string).

(** What the engine reports for one ["<port>/tcp"] key: a list of host
    binding records, or [None] for a port that is exposed but not published. *)
Inductive PortBindings : Type :=
| PyNone
| PyList (l : list HostBinding).

(** [container.ports]: the dictionary of docker container port mappings. *)
Abbreviation Ports := (gmap string PortBindings).

(** Pieces of a formatted message.  The message of the [ValueError] raised by
    [_find_host_port] interpolates the requested port and the whole [ports]
    dictionary; they are kept as they are rather than rendered. *)
Inductive Frag : Type :=
| Lit (s : string)
| IntArg (z : Z)
| PortsArg (ports : Ports).

(** Exceptions raised by the runner or passed through it. *)
Inductive Exn : Type :=
| AssertionError (msg : string)
| NotImplementedError (msg : string)
| ValueError (msg : list Frag)
| TypeError (msg : string)
| IndexError (msg : string)
| AttributeError (msg : string)
| JobAborted (msg : string)          (* error_types.JobAborted *)
| DeadlineExceeded (msg : string)    (* error_types.DeadlineExceeded *)
| NotFound (msg : string)            (* docker_errors.NotFound *)
| APIError (msg : string).           (* any other docker error *)

(** The outcome of a call: a returned value or a raised exception. *)
Inductive Result (A : Type) : Type :=
| Return (a : A)
| Raise (e : Exn).
Arguments Return {A} a.
Arguments Raise {A} e.

(** [str(x)] inside an f-string, for a value that is a string or [None]. *)
Definition format_opt (x : option string) : string :=
  match x with
  | Some s => s
  | None => "None"
  end.

(** Truth value of an [int] and of a [str]. *)
Definition truthy_int (z : Z) : bool := negb (Z.eqb z 0).
Definition truthy_str (s : string) : bool := negb (String.eqb s "").

(** Truth value of what [dict.get] returns for a port key: [None] and the
    empty list are false. *)
Definition truthy (v : PortBindings) : bool :=
  match v with
  | PyNone => false
  | PyList [] => false
  | PyList (_ :: _) => true
  end.

(** [d.get(key)] on a port mapping: [None] when the key is absent. *)
Definition dict_get (d : Ports) (key : string) : PortBindings :=
  default PyNone (d !! key).

(** [v[0]]. *)
Definition subscript0 (v : PortBindings) : Result HostBinding :=
  match v with
  | PyNone => Raise (TypeError "'NoneType' object is not subscriptable")
  | PyList [] => Raise (IndexError "list index out of range")
  | PyList (m0 :: _) => Return m0
  end.

(** ** Client construction *)

(** Modelled from the spec: the engine connection parameters
    ([infra_validator_pb2.LocalDockerConfig], generated code that is not among
    the sources): an optional timeout in seconds, an optional base URL and an
    optional API version string.  The fields are scalars; a field that was not
    given reads as [0] or as the empty string. *)
Record LocalDockerConfig : Type := {
  client_base_url : string;
  client_api_version : string;
  client_timeout_seconds : Z;
}.

(** A docker client, known by the keyword arguments it was made with. *)
Record DockerClient : Type := {
  client_kwargs : gmap string PyVal;
}.

Definition _make_docker_client (config : LocalDockerConfig) : DockerClient :=
  let params : gmap string PyVal := ∅ in
  let params :=
    if truthy_int (client_timeout_seconds config)
    then <["timeout" := PyInt (client_timeout_seconds config)]> params
    else params in
  let params :=
    if truthy_str (client_base_url config)
    then <["base_url" := PyStr (client_base_url config)]> params
    else params in
  let params :=
    if truthy_str (client_api_version config)
    then <["version" := PyStr (client_api_version config)]> params
    else params in
  {| client_kwargs := params |}.

(** ** Host port resolution *)

(** The key [f'{container_port}/tcp']. *)
Definition port_key (container_port : Z) : string :=
  pretty container_port +:+ "/tcp".

Definition _find_host_port (ports : Ports) (container_port : Z)
  : Result (option string) :=
  let mappings := dict_get ports (port_key container_port) in
  if truthy mappings then
    match subscript0 mappings with
    | Return m0 => Return (m0 !! "HostPort")
    | Raise e => Raise e
    end
  else
    Raise (ValueError [Lit "No HostPort found for ContainerPort=";
                       IntArg container_port;
                       Lit " (all port mappings: ";
                       PortsArg ports;
                       Lit ")"]).

(** ** The runner and its surroundings *)

(** Keyword arguments of [containers.run]: an opaque bundle made by the
    serving binary. *)
Abbreviation RunParams := (gmap string PyVal).

(** Modelled from the spec: the serving binary descriptor
    ([serving_bins.ServingBinary], not among the sources): the image, the port
    the server listens on inside the container, and the method that makes the
    run parameters from a model path and the mount flag.  [class_name] is
    [type(b).__name__] and [is_TensorFlowServing] is
    [isinstance(b, serving_bins.TensorFlowServing)]. *)
Record ServingBinary : Type := {
  class_name : string;
  is_TensorFlowServing : bool;
  image : string;
  container_port : Z;
  MakeDockerRunParams : string -> bool -> RunParams;
}.

(** Modelled from the spec: the part of [infra_validator_pb2.ServingSpec] the
    runner reads, the engine connection parameters. *)
Record ServingSpec : Type := {
  local_docker : LocalDockerConfig;
}.

(** A container object: the attributes last loaded from the engine. *)
Record Container : Type := {
  status : string;
  ports : Ports;
}.

Record LocalDockerRunner : Type := {
  _model_path : string;
  _serving_binary : ServingBinary;
  _serving_spec : ServingSpec;
  _docker : DockerClient;
  _container : option Container;
  _endpoint : option string;
}.

Definition set_container (c : option Container) (r : LocalDockerRunner)
  : LocalDockerRunner :=
  {| _model_path := _model_path r;
     _serving_binary := _serving_binary r;
     _serving_spec := _serving_spec r;
     _docker := _docker r;
     _container := c;
     _endpoint := _endpoint r |}.

Definition set_endpoint (e : option string) (r : LocalDockerRunner)
  : LocalDockerRunner :=
  {| _model_path := _model_path r;
     _serving_binary := _serving_binary r;
     _serving_spec := _serving_spec r;
     _docker := _docker r;
     _container := _container r;
     _endpoint := e |}.

(** Extra message pieces for the logger. *)
Inductive LogArg : Type :=
| LogLit (s : string)
| LogParams (p : RunParams).

(** What the runner does to the outside world. *)
Inductive Event : Type :=
| EvTime                        (* time.time() *)
| EvSleep (secs : Z)            (* time.sleep(secs) *)
| EvLog (msg : list LogArg)     (* logging.info(...) *)
| EvIsDir (path : string)       (* os.path.isdir(path) *)
| EvRun (params : RunParams)    (* self._docker.containers.run, with params *)
| EvReload                      (* self._container.reload() *)
| EvStop                        (* self._container.stop() *)
| EvClose.                      (* self._docker.close() *)

Definition is_time (e : Event) : bool :=
  match e with EvTime => true | _ => false end.
Definition is_run (e : Event) : bool :=
  match e with EvRun _ => true | _ => false end.
Definition is_reload (e : Event) : bool :=
  match e with EvReload => true | _ => false end.
Definition is_stop (e : Event) : bool :=
  match e with EvStop => true | _ => false end.
Definition is_close (e : Event) : bool :=
  match e with EvClose => true | _ => false end.

(** The calls that reach the docker engine. *)
Definition is_engine_call (e : Event) : bool :=
  is_run e || is_reload e || is_stop e.

Fixpoint count (p : Event -> bool) (log : list Event) : nat :=
  match log with
  | [] => O
  | e :: log' => if p e then S (count p log') else count p log'
  end.

(** The answers of the outside world.  The clock and the engine are not under
    the runner's control: the [n]-th call of each kind (counting from [0]) gets
    the answer the oracle has for it.  Clock readings and deadlines are numbers
    compared with [<]; they are integers here, in units of the clock's
    resolution. *)
Record Engine : Type := {
  time_time : nat -> Z;
  os_path_isdir : string -> bool;
  containers_run : nat -> RunParams -> Result Container;
  container_reload : nat -> Result Container;
  container_stop : nat -> Result unit;
  client_close : nat -> Result unit;
}.

(** The state a method runs in: the runner object and the log of events so
    far, most recent first. *)
Record State : Type := {
  self : LocalDockerRunner;
  events : list Event;
}.

(** Computations that read and change the state and may raise. *)
Definition Py (A : Type) : Type := State -> Result A * State.

Definition raise {A} (e : Exn) : Py A := fun st => (Raise e, st).

#[global] Instance Py_ret : MRet Py := fun A a st => (Return a, st).

#[global] Instance Py_bind : MBind Py := fun A B k m st =>
  match m st with
  | (Return a, st') => k a st'
  | (Raise e, st') => (Raise e, st')
  end.

Definition get_self : Py LocalDockerRunner := fun st => (Return (self st), st).

Definition modify_self (f : LocalDockerRunner -> LocalDockerRunner) : Py unit :=
  fun st => (Return tt, {| self := f (self st); events := events st |}).

Definition emit (e : Event) : Py unit :=
  fun st => (Return tt, {| self := self st; events := e :: events st |}).

(** [n] is the number of earlier calls of the kind [p]. *)
Definition earlier (p : Event -> bool) : Py nat :=
  fun st => (Return (count p (events st)), st).

Definition lift {A} (r : Result A) : Py A := fun st => (r, st).

(** [try: m except docker_errors.NotFound: handler]. *)
Definition except_NotFound {A} (m : Py A) (handler : Py A) : Py A :=
  fun st =>
    match m st with
    | (Raise (NotFound _), st') => handler st'
    | other => other
    end.

Definition _POLLING_INTERVAL_SEC : Z := 1.

(** *** Calls to the outside world *)

Section Methods.

Variable engine : Engine.

Definition time_call : Py Z :=
  n ← earlier is_time;
  emit EvTime;;
  mret (time_time engine n).

Definition sleep_call (secs : Z) : Py unit := emit (EvSleep secs).

Definition logging_info (msg : list LogArg) : Py unit := emit (EvLog msg).

Definition isdir_call (path : string) : Py bool :=
  emit (EvIsDir path);;
  mret (os_path_isdir engine path).

Definition run_call (params : RunParams) : Py Container :=
  n ← earlier is_run;
  emit (EvRun params);;
  lift (containers_run engine n params).

(** [self._container.reload()]: the attributes of the container object are
    replaced by what the engine reports now. *)
Definition reload_call : Py unit :=
  r ← get_self;
  match _container r with
  | None => raise (AttributeError "'NoneType' object has no attribute 'reload'")
  | Some _ =>
      n ← earlier is_reload;
      emit EvReload;;
      c ← lift (container_reload engine n);
      modify_self (set_container (Some c))
  end.

Definition container_status : Py string :=
  r ← get_self;
  match _container r with
  | None => raise (AttributeError "'NoneType' object has no attribute 'status'")
  | Some c => mret (status c)
  end.

Definition container_ports : Py Ports :=
  r ← get_self;
  match _container r with
  | None => raise (AttributeError "'NoneType' object has no attribute 'ports'")
  | Some c => mret (ports c)
  end.

Definition stop_call : Py unit :=
  n ← earlier is_stop;
  emit EvStop;;
  lift (container_stop engine n).

Definition close_call : Py unit :=
  n ← earlier is_close;
  emit EvClose;;
  lift (client_close engine n).

(** *** The methods of [LocalDockerRunner] *)

Definition __init__ (model_path : string) (serving_binary : ServingBinary)
    (serving_spec : ServingSpec) : LocalDockerRunner :=
  {| _model_path := model_path;
     _serving_binary := serving_binary;
     _serving_spec := serving_spec;
     _docker := _make_docker_client (local_docker serving_spec);
     _container := None;
     _endpoint := None |}.

Definition __repr__ (r : LocalDockerRunner) : string :=
  "LocalDockerRunner(image: " +:+ image (_serving_binary r) +:+ ")".

Definition GetEndpoint : Py string :=
  r ← get_self;
  match _endpoint r with
  | None =>
      raise (AssertionError
               "Endpoint is not yet created. You should call Start() first.")
  | Some e => mret e
  end.

Definition Start : Py unit :=
  r ← get_self;
  match _container r with
  | Some _ =>
      raise (AssertionError "You cannot start model server multiple times.")
  | None =>
      if negb (is_TensorFlowServing (_serving_binary r)) then
        raise (NotImplementedError
                 ("Unsupported serving binary "
                    +:+ class_name (_serving_binary r)))
      else
        is_local ← isdir_call (_model_path r);
        let run_params :=
          MakeDockerRunParams (_serving_binary r) (_model_path r) is_local in
        logging_info [LogLit "Running container with parameter ";
                      LogParams run_params];;
        c ← run_call run_params;
        modify_self (set_container (Some c))
  end.

(** How one round of a loop ends: [continue], or [return] from the method. *)
Inductive Flow : Type :=
| Continue
| Returned.

(** [while cond: body] followed by [orelse], the code after the loop.  The
    loop is run for at most [fuel] tests of its condition; [None] means that
    they were not enough. *)
Fixpoint while_loop (fuel : nat) (cond : Py bool) (body : Py Flow)
    (orelse : Py unit) (st : State) : option (Result unit * State) :=
  match fuel with
  | O => None
  | S fuel' =>
      match cond st with
      | (Raise e, st1) => Some (Raise e, st1)
      | (Return false, st1) => Some (orelse st1)
      | (Return true, st1) =>
          match body st1 with
          | (Raise e, st2) => Some (Raise e, st2)
          | (Return Returned, st2) => Some (Return tt, st2)
          | (Return Continue, st2) => while_loop fuel' cond body orelse st2
          end
      end
  end.

(** The test [time.time() < deadline]. *)
Definition before (deadline : Z) : Py bool :=
  now ← time_call;
  mret (now <? deadline).

(** One round of the polling loop of [WaitUntilRunning]. *)
Definition poll : Py Flow :=
  status ← except_NotFound
    (reload_call;; container_status)
    (raise (JobAborted
       "Container not found. Possibly removed after the job has been aborted."));
  if String.eqb status "created" then
    sleep_call _POLLING_INTERVAL_SEC;;
    mret Continue
  else if String.eqb status "running" then
    r ← get_self;
    mapping ← container_ports;
    host_port ← lift (_find_host_port mapping
                        (container_port (_serving_binary r)));
    modify_self (set_endpoint (Some ("localhost:" +:+ format_opt host_port)));;
    mret Returned
  else
    raise (JobAborted
             ("Job has been aborted (container status=" +:+ status +:+ ")")).

Definition WaitUntilRunning (fuel : nat) (deadline : Z) (st : State)
  : option (Result unit * State) :=
  match _container (self st) with
  | None => Some (Raise (AssertionError "container has not been started."), st)
  | Some _ =>
      while_loop fuel (before deadline) poll
        (raise (DeadlineExceeded
           "Deadline exceeded while waiting for the container to be running."))
        st
  end.

Definition Stop : Py unit :=
  r ← get_self;
  match _container r with
  | Some _ =>
      logging_info [LogLit "Stopping container."];;
      stop_call
  | None => mret tt
  end;;
  close_call.

End Methods.

(** ** Names of the specification *)

(** The error of [_find_host_port], called [PortNotFound] in the
    specification: a [ValueError] whose message carries the requested port and
    the whole port mapping. *)
Definition PortNotFound (container_port : Z) (mapping : Ports) : Exn :=
  ValueError [Lit "No HostPort found for ContainerPort=";
              IntArg container_port;
              Lit " (all port mappings: ";
              PortsArg mapping;
              Lit ")"].

(** The statuses of a container that will not come to run. *)
Definition aborted_statuses : list string :=
  ["exited"; "dead"; "paused"; "restarting"; "removing"].

Definition job_aborted_message (s : string) : string :=
  "Job has been aborted (container status=" +:+ s +:+ ")".

Definition deadline_message : string :=
  "Deadline exceeded while waiting for the container to be running.".

(** The state after a reload that the engine answered with [c]. *)
Definition reloaded (c : Container) (st : State) : State :=
  {| self := set_container (Some c) (self st);
     events := EvReload :: events st |}.

(** The log after [n] rounds of the polling loop that each saw [created]:
    a reading of the clock, a reload and a sleep per round. *)
Fixpoint created_rounds (n : nat) (log : list Event) : list Event :=
  match n with
  | O => log
  | S n' =>
      EvSleep _POLLING_INTERVAL_SEC :: EvReload :: EvTime
        :: created_rounds n' log
  end.

(** ** Scenarios *)

Module Scenario.

(** A TensorFlow Serving binary that listens on port 8500. *)
Definition tensorflow_serving : ServingBinary :=
  {| class_name := "TensorFlowServing";
     is_TensorFlowServing := true;
     image := "tensorflow/serving";
     container_port := 8500;
     MakeDockerRunParams := fun _ _ =>
       {[ "image" := PyStr "tensorflow/serving" ]} |}.

Definition config : LocalDockerConfig :=
  {| client_base_url := "";
     client_api_version := "1.40";
     client_timeout_seconds := 30 |}.

Definition container (s : string) (mapping : Ports) : Container :=
  {| status := s; ports := mapping |}.

(** The mapping [{"8500/tcp": [{"HostPort": "32769"}]}]. *)
Definition grpc_ports : Ports :=
  {[ "8500/tcp" := PyList [ {[ "HostPort" := "32769" ]} ] ]}.

(** The mapping of the docstring of [_find_host_port], the gRPC port being
    published on a second address as well. *)
Definition two_bindings : Ports :=
  {[ "8500/tcp" := PyList [ {[ "HostIp" := "0.0.0.0"; "HostPort" := "32769" ]};
                            {[ "HostIp" := "::"; "HostPort" := "32770" ]} ];
     "8501/tcp" := PyList [ {[ "HostIp" := "0.0.0.0"; "HostPort" := "32768" ]} ] ]}.

(** Port 8500 published on one address of the host other than the loopback. *)
Definition lan_binding : Ports :=
  {[ "8500/tcp" :=
       PyList [ {[ "HostIp" := "192.168.1.5"; "HostPort" := "32769" ]} ] ]}.

(** Port 8500 exposed but not published. *)
Definition unpublished : Ports := {[ "8500/tcp" := PyNone ]}.

(** Port 8500 with no binding. *)
Definition no_binding : Ports := {[ "8500/tcp" := PyList [] ]}.

(** A binding record without its host port. *)
Definition no_host_port : Ports :=
  {[ "8500/tcp" := PyList [ {[ "HostIp" := "0.0.0.0" ]} ] ]}.

(** An engine that answers the reloads and the stop requests from two
    scripts and whose clock reads [clock n] at the [n]-th reading.  After the
    script of reloads the container is gone; after the script of stop requests
    they succeed. *)
Definition scripted (clock : nat -> Z) (reloads : list (Result Container))
    (stops : list (Result unit)) : Engine :=
  {| time_time := clock;
     os_path_isdir := fun _ => true;
     containers_run := fun _ _ => Return (container "created" ∅);
     container_reload := fun n =>
       nth n reloads (Raise (NotFound "No such container"));
     container_stop := fun n => nth n stops (Return tt);
     client_close := fun _ => Return tt |}.

(** A clock that advances by one unit per reading, from 0. *)
Definition ticking (n : nat) : Z := Z.of_nat n.

Definition fresh : State :=
  {| self := __init__ "/tmp/model" tensorflow_serving
               {| local_docker := config |};
     events := [] |}.

(** The state after a successful [Start] (the engine's answers to reloads
    and stop requests play no part in it). *)
Definition started : State := snd (Start (scripted ticking [] []) fresh).

(** created, created, running. *)
Definition engine_ready (mapping : Ports) : Engine :=
  scripted ticking
    [Return (container "created" ∅); Return (container "created" ∅);
     Return (container "running" mapping)] [].

(** created, then exited. *)
Definition engine_exited : Engine :=
  scripted ticking
    [Return (container "created" ∅); Return (container "exited" ∅)] [].

(** An engine on which every stop request succeeds. *)
Definition engine_stops : Engine := scripted ticking [] [].

(** An engine whose first stop request fails. *)
Definition engine_stop_fails : Engine :=
  scripted ticking [] [Raise (APIError "500 Server Error")].

End Scenario.

(** ** Further scenarios *)

Module Cases.

(** A serving binary of a class other than TensorFlow Serving. *)
Definition other_binary : ServingBinary :=
  {| class_name := "TorchServe";
     is_TensorFlowServing := false;
     image := "pytorch/torchserve";
     container_port := 7070;
     MakeDockerRunParams := fun _ _ =>
       {[ "image" := PyStr "pytorch/torchserve" ]} |}.

(** An engine that refuses to run the container. *)
Definition engine_launch_fails : Engine :=
  {| time_time := Scenario.ticking;
     os_path_isdir := fun _ => false;
     containers_run := fun _ _ => Raise (APIError "No such image");
     container_reload := fun _ => Raise (NotFound "No such container");
     container_stop := fun _ => Return tt;
     client_close := fun _ => Return tt |}.

(** created, then the container has been removed. *)
Definition engine_gone : Engine :=
  Scenario.scripted Scenario.ticking
    [Return (Scenario.container "created" ∅)] [].

(** created, then the engine fails to answer. *)
Definition engine_reload_error : Engine :=
  Scenario.scripted Scenario.ticking
    [Return (Scenario.container "created" ∅);
     Raise (APIError "500 Server Error")] [].

(** A container that stays in the created status. *)
Definition engine_created_forever : Engine :=
  {| time_time := Scenario.ticking;
     os_path_isdir := fun _ => true;
     containers_run := fun _ _ => Return (Scenario.container "created" ∅);
     container_reload := fun _ => Return (Scenario.container "created" ∅);
     container_stop := fun _ => Return tt;
     client_close := fun _ => Return tt |}.

(** created, then a status written with a capital letter. *)
Definition engine_capital_status : Engine :=
  Scenario.scripted Scenario.ticking
    [Return (Scenario.container "created" ∅);
     Return (Scenario.container "Running" Scenario.grpc_ports)] [].

(** A runner made for a binary that is not supported. *)
Definition fresh_other : State :=
  {| self := __init__ "/tmp/model" other_binary
               {| local_docker := Scenario.config |};
     events := [] |}.

End Cases.

(** * Properties *)

(** ** Host port resolution *)

Lemma dict_get_Some (d : Ports) (key : string) (v : PortBindings) :
  d !! key = Some v -> dict_get d key = v.
Proof. unfold dict_get. now intros ->. Qed.

Lemma dict_get_None (d : Ports) (key : string) :
  d !! key = None -> dict_get d key = PyNone.
Proof. unfold dict_get. now intros ->. Qed.

(** What [_find_host_port] does, by the value [ports.get] finds. *)
Lemma find_host_port_cases (mapping : Ports) (p : Z) :
  _find_host_port mapping p =
    match dict_get mapping (port_key p) with
    | PyList (m0 :: _) => Return (m0 !! "HostPort")
    | _ => Raise (PortNotFound p mapping)
    end.
Proof.
  unfold _find_host_port.
  destruct (dict_get mapping (port_key p)) as [|[|m0 l]]; reflexivity.
Qed.

(** If the resolution returns, the key is bound to a list and the result is
    the host port of its first record. *)
Lemma find_host_port_Return (mapping : Ports) (p : Z) (hp : option string) :
  _find_host_port mapping p = Return hp ->
  exists b bs, mapping !! port_key p = Some (PyList (b :: bs))
               /\ hp = b !! "HostPort".
Proof.
  rewrite find_host_port_cases. unfold dict_get.
  destruct (mapping !! port_key p) as [[|[|b bs]]|] eqn:E; simpl;
    try discriminate.
  intros [= <-]. now exists b, bs.
Qed.

(** C3: when the key ["<P>/tcp"] is bound to a non-empty list of host binding
    records, resolving port [P] returns the host port of the first record,
    however long the list is. *)
Theorem find_host_port_first
    (mapping : Ports) (p : Z) (b : HostBinding) (bs : list HostBinding) :
  mapping !! port_key p = Some (PyList (b :: bs)) ->
  _find_host_port mapping p = Return (b !! "HostPort").
Proof.
  intros H. rewrite find_host_port_cases.
  now rewrite (dict_get_Some _ _ _ H).
Qed.

Lemma find_host_port_first_witness :
  _find_host_port Scenario.two_bindings 8500 = Return (Some "32769").
Proof.
  refine (eq_trans
    (find_host_port_first Scenario.two_bindings 8500
       {[ "HostIp" := "0.0.0.0"; "HostPort" := "32769" ]}
       [ {[ "HostIp" := "::"; "HostPort" := "32770" ]} ] _) _);
    reflexivity.
Defined.

(** C4: when the key ["<P>/tcp"] is absent or bound to an empty list,
    resolving port [P] raises the error that carries the requested port and
    the whole mapping, and returns no value. *)
Theorem find_host_port_not_found (mapping : Ports) (p : Z) :
  mapping !! port_key p = None \/ mapping !! port_key p = Some (PyList []) ->
  _find_host_port mapping p = Raise (PortNotFound p mapping)
  /\ forall hp, _find_host_port mapping p <> Return hp.
Proof.
  intros H.
  assert (E : _find_host_port mapping p = Raise (PortNotFound p mapping)).
  { rewrite find_host_port_cases.
    destruct H as [H|H].
    - now rewrite (dict_get_None _ _ H).
    - now rewrite (dict_get_Some _ _ _ H). }
  split; [exact E|]. intros hp. rewrite E. discriminate.
Qed.

Lemma find_host_port_not_found_witness :
  _find_host_port Scenario.no_binding 8500
    = Raise (PortNotFound 8500 Scenario.no_binding)
  /\ _find_host_port Scenario.grpc_ports 8501
    = Raise (PortNotFound 8501 Scenario.grpc_ports).
Proof.
  split.
  - refine (proj1 (find_host_port_not_found Scenario.no_binding 8500 _)).
    right. reflexivity.
  - refine (proj1 (find_host_port_not_found Scenario.grpc_ports 8501 _)).
    left. reflexivity.
Defined.

(** ** Client construction *)

Lemma truthy_int_decide (z : Z) :
  truthy_int z = if decide (z = 0) then false else true.
Proof.
  unfold truthy_int. destruct (Z.eqb_spec z 0); case_decide; easy.
Qed.

Lemma truthy_str_decide (s : string) :
  truthy_str s = if decide (s = "") then false else true.
Proof.
  unfold truthy_str. destruct (String.eqb_spec s ""); case_decide; easy.
Qed.

(** C8: each of the three connection parameters that is given (a timeout
    other than 0, a base URL or an API version other than the empty string) is
    passed on unchanged among the keyword arguments of the client, under the
    names [timeout], [base_url] and [version]; one that is not given is left
    out, and no other keyword argument is passed. *)
Theorem make_docker_client_forwards (config : LocalDockerConfig) :
  let kwargs := client_kwargs (_make_docker_client config) in
  kwargs !! "timeout" =
    (if decide (client_timeout_seconds config = 0) then None
     else Some (PyInt (client_timeout_seconds config)))
  /\ kwargs !! "base_url" =
    (if decide (client_base_url config = "") then None
     else Some (PyStr (client_base_url config)))
  /\ kwargs !! "version" =
    (if decide (client_api_version config = "") then None
     else Some (PyStr (client_api_version config)))
  /\ forall key, key <> "timeout" -> key <> "base_url" -> key <> "version" ->
       kwargs !! key = None.
Proof.
  unfold _make_docker_client; simpl.
  rewrite truthy_int_decide, !truthy_str_decide.
  repeat case_decide; repeat split; intros; simplify_map_eq; reflexivity.
Qed.

(** ** The polling loop *)

Section Polling.

Variable engine : Engine.

Lemma before_run (deadline : Z) (st : State) :
  before engine deadline st =
    (Return (time_time engine (count is_time (events st)) <? deadline),
     {| self := self st; events := EvTime :: events st |}).
Proof. reflexivity. Qed.

(** One round of the loop when the reload succeeds. *)
Lemma poll_reloaded (st : State) (c0 c : Container) :
  _container (self st) = Some c0 ->
  container_reload engine (count is_reload (events st)) = Return c ->
  poll engine st =
    if String.eqb (status c) "created" then
      (Return Continue,
       {| self := self (reloaded c st);
          events := EvSleep _POLLING_INTERVAL_SEC :: events (reloaded c st) |})
    else if String.eqb (status c) "running" then
      match _find_host_port (ports c) (container_port (_serving_binary (self st)))
      with
      | Return hp =>
          (Return Returned,
           {| self := set_endpoint (Some ("localhost:" +:+ format_opt hp))
                        (self (reloaded c st));
              events := events (reloaded c st) |})
      | Raise e => (Raise e, reloaded c st)
      end
    else (Raise (JobAborted (job_aborted_message (status c))), reloaded c st).
Proof.
  intros Hc Hr.
  unfold poll, except_NotFound, reload_call, container_status, container_ports,
    get_self, earlier, emit, lift, modify_self, sleep_call, raise,
    mbind, mret, Py_bind, Py_ret.
  simpl. rewrite Hc. simpl. rewrite Hr. simpl.
  destruct (String.eqb (status c) "created"); [reflexivity|].
  destruct (String.eqb (status c) "running"); [|reflexivity].
  simpl.
  destruct (_find_host_port (ports c) _); reflexivity.
Qed.

(** One round of the loop when the reload fails: a container that is not
    found aborts the job, any other error is passed on. *)
Lemma poll_reload_raises (st : State) (c0 : Container) (e : Exn) :
  _container (self st) = Some c0 ->
  container_reload engine (count is_reload (events st)) = Raise e ->
  poll engine st =
    (Raise match e with
           | NotFound _ =>
               JobAborted
                 "Container not found. Possibly removed after the job has been aborted."
           | _ => e
           end,
     {| self := self st; events := EvReload :: events st |}).
Proof.
  intros Hc Hr.
  unfold poll, except_NotFound, reload_call, container_status,
    get_self, earlier, emit, lift, modify_self, raise,
    mbind, mret, Py_bind, Py_ret.
  simpl. rewrite Hc. simpl. rewrite Hr. simpl.
  destruct e; reflexivity.
Qed.

Lemma created_rounds_shift (n : nat) (log : list Event) :
  created_rounds n (EvSleep _POLLING_INTERVAL_SEC :: EvReload :: EvTime :: log)
  = EvSleep _POLLING_INTERVAL_SEC :: EvReload :: EvTime :: created_rounds n log.
Proof.
  induction n as [|n IH]; [reflexivity|].
  simpl. now rewrite IH.
Qed.

Lemma count_app (p : Event -> bool) (l1 l2 : list Event) :
  count p (app l1 l2) = (count p l1 + count p l2)%nat.
Proof.
  induction l1 as [|e l1 IH]; [reflexivity|].
  simpl. destruct (p e); simpl; now rewrite IH.
Qed.

Lemma count_created_rounds (p : Event -> bool) (n : nat) (log : list Event) :
  count p (created_rounds n log) =
    (n * count p [EvSleep _POLLING_INTERVAL_SEC; EvReload; EvTime]
     + count p log)%nat.
Proof.
  induction n as [|n IH]; [reflexivity|].
  change (created_rounds (S n) log)
    with (app [EvSleep _POLLING_INTERVAL_SEC; EvReload; EvTime]
              (created_rounds n log)).
  rewrite count_app, IH. lia.
Qed.

(** [n] rounds that each see [created] before the deadline use up [n] units
    of fuel and leave the runner as it was, but for the attributes of its
    container. *)
Lemma WaitUntilRunning_created_rounds (n : nat) :
  forall (fuel : nat) (deadline : Z) (st : State) (c0 : Container),
  _container (self st) = Some c0 ->
  (forall i, (i < n)%nat ->
     exists c, container_reload engine (count is_reload (events st) + i)
               = Return c /\ status c = "created") ->
  (forall i, (i < n)%nat ->
     time_time engine (count is_time (events st) + i) < deadline) ->
  exists st' c',
    WaitUntilRunning engine (n + fuel) deadline st
      = WaitUntilRunning engine fuel deadline st'
    /\ events st' = created_rounds n (events st)
    /\ _container (self st') = Some c'
    /\ _serving_binary (self st') = _serving_binary (self st)
    /\ _docker (self st') = _docker (self st)
    /\ _endpoint (self st') = _endpoint (self st).
Proof.
  induction n as [|n IH]; intros fuel deadline st c0 Hc Hre Htm.
  - exists st, c0. repeat split; assumption.
  - destruct (Hre O ltac:(lia)) as (c & Hr0 & Hs0).
    pose proof (Htm O ltac:(lia)) as Ht0.
    rewrite Nat.add_0_r in Hr0, Ht0.
    set (st2 := {| self := set_container (Some c) (self st);
                   events := EvSleep _POLLING_INTERVAL_SEC :: EvReload
                               :: EvTime :: events st |}).
    destruct (IH fuel deadline st2 c eq_refl) as (st' & c' & E & Hev & Hc' & Hb & Hd & He).
    + intros i Hi. simpl.
      replace (S (count is_reload (events st) + i))
        with (count is_reload (events st) + S i)%nat by lia.
      apply Hre. lia.
    + intros i Hi. simpl.
      replace (S (count is_time (events st) + i))
        with (count is_time (events st) + S i)%nat by lia.
      apply Htm. lia.
    + exists st', c'. repeat split; try assumption.
      * rewrite <- E. unfold WaitUntilRunning at 1. rewrite Hc.
        cbn [Nat.add while_loop]. rewrite before_run.
        apply Z.ltb_lt in Ht0. rewrite Ht0.
        rewrite (poll_reloaded _ c0 c); [|assumption|assumption].
        rewrite Hs0. cbn [String.eqb Ascii.eqb Bool.eqb].
        reflexivity.
      * rewrite Hev. simpl. apply created_rounds_shift.
Qed.

(** After [n] rounds that saw [created], a reload that reports another
    status ends the call in that round: with success if the status is
    [running] and the port resolves, with an error if not. *)
Lemma WaitUntilRunning_last_round
    (n fuel : nat) (deadline : Z) (st : State) (c0 c : Container) :
  _container (self st) = Some c0 ->
  (forall i, (i < n)%nat ->
     exists ci, container_reload engine (count is_reload (events st) + i)
                = Return ci /\ status ci = "created") ->
  (forall i, (i <= n)%nat ->
     time_time engine (count is_time (events st) + i) < deadline) ->
  container_reload engine (count is_reload (events st) + n) = Return c ->
  String.eqb (status c) "created" = false ->
  (n < fuel)%nat ->
  exists st1 : State,
    events st1 = EvTime :: created_rounds n (events st)
    /\ _serving_binary (self st1) = _serving_binary (self st)
    /\ _docker (self st1) = _docker (self st)
    /\ _endpoint (self st1) = _endpoint (self st)
    /\ WaitUntilRunning engine fuel deadline st =
       Some
         (if String.eqb (status c) "running" then
            match _find_host_port (ports c)
                    (container_port (_serving_binary (self st)))
            with
            | Return hp =>
                (Return tt,
                 {| self := set_endpoint
                              (Some ("localhost:" +:+ format_opt hp))
                              (self (reloaded c st1));
                    events := events (reloaded c st1) |})
            | Raise e => (Raise e, reloaded c st1)
            end
          else
            (Raise (JobAborted (job_aborted_message (status c))),
             reloaded c st1)).
Proof.
  intros Hc Hre Htm Hr Hs Hfuel.
  destruct (WaitUntilRunning_created_rounds n (fuel - n) deadline st c0 Hc Hre)
    as (st' & c' & E & Hev & Hc' & Hb & Hd & He).
  { intros i Hi. apply Htm. lia. }
  replace (n + (fuel - n))%nat with fuel in E by lia.
  destruct (fuel - n)%nat as [|f] eqn:Ef; [lia|].
  exists {| self := self st'; events := EvTime :: events st' |}.
  simpl. rewrite Hev. repeat split; try assumption.
  rewrite E. unfold WaitUntilRunning. rewrite Hc'.
  cbn [while_loop]. rewrite before_run, Hev.
  rewrite count_created_rounds.
  replace (n * count is_time [EvSleep _POLLING_INTERVAL_SEC; EvReload; EvTime]
           + count is_time (events st))%nat
    with (count is_time (events st) + n)%nat by (simpl; lia).
  pose proof (Htm n (le_n n)) as Ht. apply Z.ltb_lt in Ht. rewrite Ht.
  rewrite (poll_reloaded _ c' c).
  - rewrite Hs. simpl. rewrite Hb.
    destruct (String.eqb (status c) "running"); [|reflexivity].
    destruct (_find_host_port (ports c) _); reflexivity.
  - exact Hc'.
  - simpl. rewrite count_created_rounds.
    replace (n * count is_reload [EvSleep _POLLING_INTERVAL_SEC; EvReload; EvTime]
             + count is_reload (events st))%nat
      with (count is_reload (events st) + n)%nat by (simpl; lia).
    exact Hr.
Qed.

Lemma aborted_status_eqb (s : string) :
  In s aborted_statuses ->
  String.eqb s "created" = false /\ String.eqb s "running" = false.
Proof.
  unfold aborted_statuses. simpl.
  intros [<-|[<-|[<-|[<-|[<-|[]]]]]]; split; reflexivity.
Qed.

(** C5: on a started runner, when a reload made by [WaitUntilRunning] (the
    one after [n] rounds that saw [created] before the deadline) reports one of
    the statuses exited, dead, paused, restarting and removing, the call raises
    [JobAborted] with that very status in its message, and that reload is the
    last thing the call does: no further reload is made. *)
Theorem WaitUntilRunning_aborted
    (n fuel : nat) (deadline : Z) (st : State) (c0 c : Container) :
  _container (self st) = Some c0 ->
  (forall i, (i < n)%nat ->
     exists ci, container_reload engine (count is_reload (events st) + i)
                = Return ci /\ status ci = "created") ->
  (forall i, (i <= n)%nat ->
     time_time engine (count is_time (events st) + i) < deadline) ->
  container_reload engine (count is_reload (events st) + n) = Return c ->
  In (status c) aborted_statuses ->
  (n < fuel)%nat ->
  exists st' : State,
    WaitUntilRunning engine fuel deadline st =
      Some (Raise (JobAborted ("Job has been aborted (container status="
                                 +:+ status c +:+ ")")), st')
    /\ events st' = EvReload :: EvTime :: created_rounds n (events st)
    /\ count is_reload (events st') = S (n + count is_reload (events st)).
Proof.
  intros Hc Hre Htm Hr Hin Hfuel.
  destruct (aborted_status_eqb _ Hin) as [Hs1 Hs2].
  destruct (WaitUntilRunning_last_round n fuel deadline st c0 c
              Hc Hre Htm Hr Hs1 Hfuel) as (st1 & Hev & _ & _ & _ & E).
  rewrite Hs2 in E.
  exists (reloaded c st1). split; [exact E|].
  simpl. rewrite Hev. split; [reflexivity|].
  simpl. rewrite count_created_rounds. simpl. lia.
Qed.

(** C6: on a started runner, [WaitUntilRunning] with a deadline that the
    clock has already reached raises [DeadlineExceeded] at once: it reads the
    clock and does nothing else, so that no call reaches the engine and no
    reload is made. *)
Theorem WaitUntilRunning_deadline_passed
    (fuel : nat) (deadline : Z) (st : State) (c0 : Container) :
  _container (self st) = Some c0 ->
  deadline <= time_time engine (count is_time (events st)) ->
  (0 < fuel)%nat ->
  WaitUntilRunning engine fuel deadline st =
    Some (Raise (DeadlineExceeded deadline_message),
          {| self := self st; events := EvTime :: events st |})
  /\ count is_engine_call (EvTime :: events st)
     = count is_engine_call (events st)
  /\ count is_reload (EvTime :: events st) = count is_reload (events st).
Proof.
  intros Hc Ht Hfuel. repeat split.
  unfold WaitUntilRunning. rewrite Hc.
  destruct fuel as [|f]; [lia|].
  cbn [while_loop]. rewrite before_run.
  apply Z.ltb_ge in Ht. rewrite Ht. reflexivity.
Qed.

(** C7: on a started runner whose serving binary declares port 8500, when the
    container is seen as created, created and then running with the port
    mapping [{"8500/tcp": [{"HostPort": "32769"}]}], all before the deadline,
    [WaitUntilRunning] returns and [GetEndpoint] then returns
    ["localhost:32769"]. *)
Theorem WaitUntilRunning_then_GetEndpoint
    (fuel : nat) (deadline : Z) (st : State) (c0 c1 c2 c3 : Container) :
  _container (self st) = Some c0 ->
  container_port (_serving_binary (self st)) = 8500 ->
  container_reload engine (count is_reload (events st) + 0) = Return c1 ->
  container_reload engine (count is_reload (events st) + 1) = Return c2 ->
  container_reload engine (count is_reload (events st) + 2) = Return c3 ->
  status c1 = "created" ->
  status c2 = "created" ->
  status c3 = "running" ->
  ports c3 = {[ "8500/tcp" := PyList [ {[ "HostPort" := "32769" ]} ] ]} ->
  (forall i, (i <= 2)%nat ->
     time_time engine (count is_time (events st) + i) < deadline) ->
  (2 < fuel)%nat ->
  exists st' : State,
    WaitUntilRunning engine fuel deadline st = Some (Return tt, st')
    /\ GetEndpoint st' = (Return "localhost:32769", st').
Proof.
  intros Hc Hp Hr1 Hr2 Hr3 Hs1 Hs2 Hs3 Hports Htm Hfuel.
  destruct (WaitUntilRunning_last_round 2 fuel deadline st c0 c3 Hc)
    as (st1 & _ & _ & _ & _ & E); try assumption.
  - intros i Hi. destruct i as [|[|i]]; [now exists c1|now exists c2|lia].
  - now rewrite Hs3.
  - rewrite Hs3, Hp, Hports in E. simpl in E.
    eexists. split; [exact E|]. reflexivity.
Qed.

(** A round of the loop returns from the method only after it has set the
    endpoint from the port it resolved. *)
Lemma poll_Returned (st st2 : State) :
  poll engine st = (Return Returned, st2) ->
  exists c hp,
    _container (self st2) = Some c
    /\ _find_host_port (ports c) (container_port (_serving_binary (self st2)))
       = Return hp
    /\ _endpoint (self st2) = Some ("localhost:" +:+ format_opt hp).
Proof.
  destruct (_container (self st)) as [c0|] eqn:Hc.
  - destruct (container_reload engine (count is_reload (events st)))
      as [c|e] eqn:Hr.
    + rewrite (poll_reloaded st c0 c Hc Hr).
      destruct (String.eqb (status c) "created"); [discriminate|].
      destruct (String.eqb (status c) "running"); [|discriminate].
      destruct (_find_host_port (ports c) _) as [hp|e] eqn:Hf; [|discriminate].
      intros [= <-]. exists c, hp. simpl. auto.
    + rewrite (poll_reload_raises st c0 e Hc Hr). discriminate.
  - unfold poll, except_NotFound, reload_call, get_self, raise,
      mbind, mret, Py_bind, Py_ret.
    simpl. rewrite Hc. simpl. discriminate.
Qed.

Lemma while_loop_Return (fuel : nat) (deadline : Z) :
  forall st st' : State,
  while_loop fuel (before engine deadline) (poll engine)
    (raise (DeadlineExceeded deadline_message)) st = Some (Return tt, st') ->
  exists st1, poll engine st1 = (Return Returned, st').
Proof.
  induction fuel as [|fuel IH]; intros st st'; [discriminate|].
  cbn [while_loop]. rewrite before_run.
  destruct (_ <? deadline); [|discriminate].
  destruct (poll engine _) as [[[|]|e] st2] eqn:Hp.
  - apply IH.
  - intros [= <-]. eauto.
  - discriminate.
Qed.

(** C10: whenever [WaitUntilRunning] succeeds, the endpoint it has set is
    ["localhost:"] followed by the host port of the first binding record of
    the declared container port; the host address recorded in that binding
    plays no part in it. *)
Theorem WaitUntilRunning_endpoint_localhost
    (fuel : nat) (deadline : Z) (st st' : State) :
  WaitUntilRunning engine fuel deadline st = Some (Return tt, st') ->
  exists (c : Container) (b : HostBinding) (bs : list HostBinding),
    _container (self st') = Some c
    /\ ports c !! port_key (container_port (_serving_binary (self st')))
       = Some (PyList (b :: bs))
    /\ _endpoint (self st')
       = Some ("localhost:" +:+ format_opt (b !! "HostPort")).
Proof.
  unfold WaitUntilRunning.
  destruct (_container (self st)) as [c0|]; [|discriminate].
  intros H. apply while_loop_Return in H as [st1 H].
  apply poll_Returned in H as (c & hp & Hc & Hf & He).
  apply find_host_port_Return in Hf as (b & bs & Hl & ->).
  now exists c, b, bs.
Qed.

End Polling.

(** C10, at a container whose port is published on the address 192.168.1.5:
    the endpoint is on [localhost] all the same. *)
Lemma WaitUntilRunning_endpoint_localhost_witness :
  WaitUntilRunning (Scenario.engine_ready Scenario.lan_binding) 3 100
    Scenario.started
  = Some (Return tt,
          {| self := set_endpoint (Some "localhost:32769")
                       (set_container
                          (Some (Scenario.container "running"
                                   Scenario.lan_binding))
                          (self Scenario.started));
             events := EvReload :: EvTime
                         :: created_rounds 2 (events Scenario.started) |})
  /\ exists (c : Container) (b : HostBinding) (bs : list HostBinding),
       c = Scenario.container "running" Scenario.lan_binding
       /\ ports c !! "8500/tcp" = Some (PyList (b :: bs))
       /\ b !! "HostIp" = Some "192.168.1.5"
       /\ Some "localhost:32769"
          = Some ("localhost:" +:+ format_opt (b !! "HostPort")).
Proof.
  assert (E : WaitUntilRunning (Scenario.engine_ready Scenario.lan_binding)
                3 100 Scenario.started
              = Some (Return tt,
                      {| self := set_endpoint (Some "localhost:32769")
                                   (set_container
                                      (Some (Scenario.container "running"
                                               Scenario.lan_binding))
                                      (self Scenario.started));
                         events := EvReload :: EvTime
                                     :: created_rounds 2
                                          (events Scenario.started) |}))
    by reflexivity.
  split; [exact E|].
  destruct (WaitUntilRunning_endpoint_localhost _ _ _ _ _ E)
    as (c & b & bs & Hc & Hl & He).
  exists c, b, bs. simpl in Hc. injection Hc as <-.
  repeat split.
  - exact Hl.
  - change (Scenario.lan_binding !! "8500/tcp" = Some (PyList (b :: bs))) in Hl.
    vm_compute in Hl. injection Hl as <- _. reflexivity.
  - exact He.
Defined.

(** C5, at a container that is seen as created and then as exited. *)
Lemma WaitUntilRunning_aborted_witness :
  exists st' : State,
    WaitUntilRunning Scenario.engine_exited 2 100 Scenario.started =
      Some (Raise (JobAborted "Job has been aborted (container status=exited)"),
            st')
    /\ events st'
       = EvReload :: EvTime :: created_rounds 1 (events Scenario.started)
    /\ count is_reload (events st') = 2%nat.
Proof.
  apply (WaitUntilRunning_aborted Scenario.engine_exited 1 2 100
           Scenario.started
           (Scenario.container "created" ∅) (Scenario.container "exited" ∅)).
  - reflexivity.
  - intros i Hi. destruct i as [|i]; [|lia].
    exists (Scenario.container "created" ∅). split; reflexivity.
  - intros i Hi. destruct i as [|[|i]]; [reflexivity|reflexivity|lia].
  - reflexivity.
  - simpl. auto.
  - lia.
Defined.

(** C6, at a deadline of 0 on a clock that reads 0. *)
Lemma WaitUntilRunning_deadline_passed_witness :
  WaitUntilRunning (Scenario.engine_ready Scenario.grpc_ports) 1 0
    Scenario.started
  = Some (Raise (DeadlineExceeded deadline_message),
          {| self := self Scenario.started;
             events := EvTime :: events Scenario.started |}).
Proof.
  refine (proj1 (WaitUntilRunning_deadline_passed
                   (Scenario.engine_ready Scenario.grpc_ports) 1 0
                   Scenario.started (Scenario.container "created" ∅) _ _ _)).
  - reflexivity.
  - vm_compute. discriminate.
  - lia.
Defined.

(** C7, on the engine that reports created, created, running. *)
Lemma WaitUntilRunning_then_GetEndpoint_witness :
  exists st' : State,
    WaitUntilRunning (Scenario.engine_ready Scenario.grpc_ports) 3 100
      Scenario.started = Some (Return tt, st')
    /\ GetEndpoint st' = (Return "localhost:32769", st').
Proof.
  apply (WaitUntilRunning_then_GetEndpoint
           (Scenario.engine_ready Scenario.grpc_ports) 3 100 Scenario.started
           (Scenario.container "created" ∅)
           (Scenario.container "created" ∅)
           (Scenario.container "created" ∅)
           (Scenario.container "running" Scenario.grpc_ports));
    try reflexivity.
  - intros i Hi. destruct i as [|[|[|i]]]; [reflexivity..|lia].
  - lia.
Defined.

(** ** A binding record without a host port *)

(** The resolution raises exactly when [ports.get] finds nothing true: the
    key is absent, or bound to [None], or bound to an empty list. *)
Lemma find_host_port_raises_iff (mapping : Ports) (p : Z) :
  (exists e, _find_host_port mapping p = Raise e)
  <-> (mapping !! port_key p = None
       \/ mapping !! port_key p = Some PyNone
       \/ mapping !! port_key p = Some (PyList [])).
Proof.
  rewrite find_host_port_cases. unfold dict_get.
  destruct (mapping !! port_key p) as [[|[|b bs]]|]; simpl; split;
    try (intros _; eauto; fail).
  - intros [e He]. discriminate.
  - intros [H|[H|H]]; discriminate.
Qed.

(** The claim C9 as it is stated fails: a port that is exposed but not
    published has its key bound to [None]; the key is neither absent nor bound
    to an empty list, and the resolution raises. *)
Lemma find_host_port_unpublished_raises :
  ~ ((exists e, _find_host_port Scenario.unpublished 8500 = Raise e)
     <-> (Scenario.unpublished !! port_key 8500 = None
          \/ Scenario.unpublished !! port_key 8500 = Some (PyList []))).
Proof.
  intros [H _].
  destruct H as [H|H].
  - exists (PortNotFound 8500 Scenario.unpublished). reflexivity.
  - vm_compute in H. discriminate.
  - vm_compute in H. discriminate.
Qed.

(** C9, amended: the resolution raises if and only if the key
    ["<containerPort>/tcp"] is absent, bound to [None] or bound to an empty
    list.  When the first binding record of the key exists and has no
    ["HostPort"] field, the resolution does not fail and returns [None], and
    a [WaitUntilRunning] that sees the container running with such a mapping
    succeeds and sets the endpoint to ["localhost:None"]. *)
Theorem find_host_port_missing_field
    (engine : Engine) (n fuel : nat) (deadline : Z) (st : State)
    (c0 c : Container) (b : HostBinding) (bs : list HostBinding) :
  _container (self st) = Some c0 ->
  (forall i, (i < n)%nat ->
     exists ci, container_reload engine (count is_reload (events st) + i)
                = Return ci /\ status ci = "created") ->
  (forall i, (i <= n)%nat ->
     time_time engine (count is_time (events st) + i) < deadline) ->
  container_reload engine (count is_reload (events st) + n) = Return c ->
  status c = "running" ->
  ports c !! port_key (container_port (_serving_binary (self st)))
    = Some (PyList (b :: bs)) ->
  b !! "HostPort" = None ->
  (n < fuel)%nat ->
  (forall (mapping : Ports) (p : Z),
     (exists e, _find_host_port mapping p = Raise e)
     <-> (mapping !! port_key p = None
          \/ mapping !! port_key p = Some PyNone
          \/ mapping !! port_key p = Some (PyList [])))
  /\ _find_host_port (ports c) (container_port (_serving_binary (self st)))
     = Return None
  /\ exists st' : State,
       WaitUntilRunning engine fuel deadline st = Some (Return tt, st')
       /\ _endpoint (self st') = Some "localhost:None".
Proof.
  intros Hc Hre Htm Hr Hs Hl Hb Hfuel.
  assert (Hf : _find_host_port (ports c)
                 (container_port (_serving_binary (self st))) = Return None).
  { rewrite find_host_port_cases, (dict_get_Some _ _ _ Hl). now rewrite Hb. }
  split; [exact find_host_port_raises_iff|]. split; [exact Hf|].
  destruct (WaitUntilRunning_last_round engine n fuel deadline st c0 c
              Hc Hre Htm Hr) as (st1 & _ & _ & _ & _ & E);
    [now rewrite Hs|assumption|].
  rewrite Hs, Hf in E. simpl in E.
  eexists. split; [exact E|reflexivity].
Qed.

Lemma find_host_port_missing_field_witness :
  _find_host_port Scenario.no_host_port 8500 = Return None
  /\ exists st' : State,
       WaitUntilRunning (Scenario.engine_ready Scenario.no_host_port) 3 100
         Scenario.started = Some (Return tt, st')
       /\ _endpoint (self st') = Some "localhost:None".
Proof.
  refine (proj2 (find_host_port_missing_field
                   (Scenario.engine_ready Scenario.no_host_port) 2 3 100
                   Scenario.started
                   (Scenario.container "created" ∅)
                   (Scenario.container "running" Scenario.no_host_port)
                   {[ "HostIp" := "0.0.0.0" ]} [] _ _ _ _ _ _ _ _));
    try reflexivity.
  - intros i Hi. destruct i as [|[|i]]; [| |lia];
      exists (Scenario.container "created" ∅); split; reflexivity.
  - intros i Hi. destruct i as [|[|[|i]]]; [reflexivity..|lia].
  - lia.
Defined.

(** ** Stopping *)

Section Stopping.

Variable engine : Engine.

(** What [Stop] does: with a container handle it logs, asks the engine to
    stop the container and, if that did not raise, closes the client; without
    one it closes the client only.  The runner object is left as it is. *)
Lemma Stop_run (st : State) :
  Stop engine st =
    match _container (self st) with
    | Some _ =>
        match container_stop engine (count is_stop (events st)) with
        | Return _ =>
            (client_close engine (count is_close (events st)),
             {| self := self st;
                events := EvClose :: EvStop
                            :: EvLog [LogLit "Stopping container."]
                            :: events st |})
        | Raise e =>
            (Raise e,
             {| self := self st;
                events := EvStop :: EvLog [LogLit "Stopping container."]
                            :: events st |})
        end
    | None =>
        (client_close engine (count is_close (events st)),
         {| self := self st; events := EvClose :: events st |})
    end.
Proof.
  unfold Stop, stop_call, close_call, logging_info, get_self, earlier, emit,
    lift, mbind, mret, Py_bind, Py_ret.
  simpl. destruct (_container (self st)); simpl.
  - destruct (container_stop engine _); simpl; [|reflexivity].
    destruct (client_close engine _); reflexivity.
  - destruct (client_close engine _); reflexivity.
Qed.

Lemma Stop_self (st : State) : self (snd (Stop engine st)) = self st.
Proof.
  rewrite Stop_run. destruct (_container (self st)); [|reflexivity].
  destruct (container_stop engine _); reflexivity.
Qed.

(** C1, amended: a second call of [Stop] does again what the first one did.
    On a runner without a container handle it makes no call to the engine
    and closes the client once more.  On a runner with a container handle it
    sends one more stop request to the engine, and it returns without an error
    exactly when that request and the closing of the client after it
    succeed. *)
Theorem Stop_twice (st : State) :
  let st1 := snd (Stop engine st) in
  let r2 := fst (Stop engine st1) in
  let st2 := snd (Stop engine st1) in
  match _container (self st) with
  | None =>
      events st2 = EvClose :: events st1
      /\ count is_engine_call (events st2) = count is_engine_call (events st1)
      /\ r2 = client_close engine (count is_close (events st1))
  | Some _ =>
      count is_stop (events st2) = S (count is_stop (events st1))
      /\ count is_engine_call (events st2)
         = S (count is_engine_call (events st1))
      /\ (r2 = Return tt <->
          container_stop engine (count is_stop (events st1)) = Return tt
          /\ client_close engine (count is_close (events st1)) = Return tt)
  end.
Proof.
  intros st1 r2 st2.
  assert (Hself : _container (self st1) = _container (self st))
    by (unfold st1; now rewrite Stop_self).
  unfold r2, st2. rewrite (Stop_run st1), Hself.
  destruct (_container (self st)) as [c|].
  - destruct (container_stop engine (count is_stop (events st1)))
      as [[]|e] eqn:Hs; simpl.
    + repeat split; tauto.
    + repeat split; try discriminate. intros [H _]; discriminate.
  - simpl. repeat split.
Qed.

(** C2, amended: on a runner with a container handle, when the stop request
    that [Stop] sends to the engine fails, [Stop] raises that very error to
    its caller, after the log entry and the request and without closing the
    client. *)
Theorem Stop_failure_propagates (st : State) (c : Container) (e : Exn) :
  _container (self st) = Some c ->
  container_stop engine (count is_stop (events st)) = Raise e ->
  Stop engine st =
    (Raise e,
     {| self := self st;
        events := EvStop :: EvLog [LogLit "Stopping container."]
                    :: events st |})
  /\ count is_close (events (snd (Stop engine st)))
     = count is_close (events st).
Proof.
  intros Hc Hs.
  assert (E : Stop engine st =
                (Raise e,
                 {| self := self st;
                    events := EvStop :: EvLog [LogLit "Stopping container."]
                                :: events st |}))
    by (rewrite Stop_run, Hc, Hs; reflexivity).
  split; [exact E|]. rewrite E. reflexivity.
Qed.

End Stopping.

(** The claim C1 as it is stated fails: on a started runner the second call
    of [Stop] sends a second stop request to the engine. *)
Lemma Stop_twice_stops_again :
  let st1 := snd (Stop Scenario.engine_stops Scenario.started) in
  let st2 := snd (Stop Scenario.engine_stops st1) in
  fst (Stop Scenario.engine_stops Scenario.started) = Return tt
  /\ count is_stop (events st1) = 1%nat
  /\ count is_stop (events st2) = 2%nat
  /\ count is_engine_call (events st2) <> count is_engine_call (events st1).
Proof. vm_compute. repeat split; discriminate. Qed.

(** The claim C2 as it is stated fails: on a started runner, when the engine
    answers the stop request with an error, [Stop] raises that error. *)
Lemma Stop_raises_engine_error :
  (exists c, _container (self Scenario.started) = Some c)
  /\ container_stop Scenario.engine_stop_fails 0
     = Raise (APIError "500 Server Error")
  /\ fst (Stop Scenario.engine_stop_fails Scenario.started)
     = Raise (APIError "500 Server Error").
Proof.
  split; [eexists; reflexivity|]. split; reflexivity.
Qed.

Lemma Stop_failure_propagates_witness :
  Stop Scenario.engine_stop_fails Scenario.started =
    (Raise (APIError "500 Server Error"),
     {| self := self Scenario.started;
        events := EvStop :: EvLog [LogLit "Stopping container."]
                    :: events Scenario.started |}).
Proof.
  refine (proj1 (Stop_failure_propagates Scenario.engine_stop_fails
                   Scenario.started (Scenario.container "created" ∅)
                   (APIError "500 Server Error") _ _));
    reflexivity.
Defined.

(** * Further properties *)

(** ** Starting *)

Section Starting.

Variable engine : Engine.

(** What [Start] does, case by case. *)
Lemma Start_run (st : State) :
  Start engine st =
    match _container (self st) with
    | Some _ =>
        (Raise (AssertionError "You cannot start model server multiple times."),
         st)
    | None =>
        if is_TensorFlowServing (_serving_binary (self st)) then
          let params :=
            MakeDockerRunParams (_serving_binary (self st))
              (_model_path (self st))
              (os_path_isdir engine (_model_path (self st))) in
          let log :=
            EvRun params
              :: EvLog [LogLit "Running container with parameter ";
                        LogParams params]
              :: EvIsDir (_model_path (self st)) :: events st in
          match containers_run engine (count is_run (events st)) params with
          | Return c =>
              (Return tt,
               {| self := set_container (Some c) (self st); events := log |})
          | Raise e => (Raise e, {| self := self st; events := log |})
          end
        else
          (Raise (NotImplementedError
                    ("Unsupported serving binary "
                       +:+ class_name (_serving_binary (self st)))),
           st)
    end.
Proof.
  unfold Start, isdir_call, logging_info, run_call, get_self, earlier, emit,
    lift, modify_self, raise, mbind, mret, Py_bind, Py_ret.
  simpl. destruct st as [r log]. simpl.
  destruct (_container r); [reflexivity|].
  destruct (is_TensorFlowServing (_serving_binary r)); simpl; [|reflexivity].
  destruct (containers_run engine _ _); reflexivity.
Qed.

(** X1: on a runner without a container handle and with a TensorFlow Serving
    binary, when the engine runs the container, [Start] returns after one
    call to the engine: it asks whether the model path is a directory, makes
    the run parameters with that answer as the mount flag, logs them and runs
    the container.  The handle is set, and the endpoint is left as it was. *)
Theorem Start_runs_container (st : State) (c : Container) :
  let path := _model_path (self st) in
  let params :=
    MakeDockerRunParams (_serving_binary (self st)) path
      (os_path_isdir engine path) in
  _container (self st) = None ->
  is_TensorFlowServing (_serving_binary (self st)) = true ->
  containers_run engine (count is_run (events st)) params = Return c ->
  exists st' : State,
    Start engine st = (Return tt, st')
    /\ events st' =
         EvRun params
           :: EvLog [LogLit "Running container with parameter ";
                     LogParams params]
           :: EvIsDir path :: events st
    /\ count is_engine_call (events st')
       = S (count is_engine_call (events st))
    /\ _container (self st') = Some c
    /\ _endpoint (self st') = _endpoint (self st).
Proof.
  intros path params Hc Hb Hr.
  rewrite Start_run, Hc, Hb. fold path. fold params. cbv zeta.
  fold path. fold params. rewrite Hr.
  eexists. split; [reflexivity|]. simpl. repeat split.
Qed.

(** X2: after a [Start] that returned, a second [Start] raises an assertion
    error and does nothing: no call reaches the engine and the state is left
    as it was. *)
Theorem Start_twice (st st1 : State) :
  Start engine st = (Return tt, st1) ->
  Start engine st1 =
    (Raise (AssertionError "You cannot start model server multiple times."),
     st1).
Proof.
  rewrite Start_run.
  destruct (_container (self st)); [discriminate|].
  destruct (is_TensorFlowServing _); [|discriminate].
  cbv zeta.
  destruct (containers_run engine _ _) as [c|e]; [|discriminate].
  intros [= <-]. rewrite Start_run. reflexivity.
Qed.

(** X3: on a runner whose serving binary is not a TensorFlow Serving one,
    [Start] raises [NotImplementedError] with the name of the class of the
    binary, before anything else is done: the file system is not asked, nothing
    is logged, and no call reaches the engine. *)
Theorem Start_unsupported_binary (st : State) :
  _container (self st) = None ->
  is_TensorFlowServing (_serving_binary (self st)) = false ->
  Start engine st =
    (Raise (NotImplementedError
              ("Unsupported serving binary "
                 +:+ class_name (_serving_binary (self st)))),
     st).
Proof.
  intros Hc Hb. now rewrite Start_run, Hc, Hb.
Qed.

(** X4: when the engine refuses to run the container, [Start] raises the
    error of the engine and the runner stays without a container handle, so
    that a [Stop] after it sends no stop request and makes no call to the
    engine. *)
Theorem Start_launch_fails (st : State) (e : Exn) :
  let path := _model_path (self st) in
  let params :=
    MakeDockerRunParams (_serving_binary (self st)) path
      (os_path_isdir engine path) in
  _container (self st) = None ->
  is_TensorFlowServing (_serving_binary (self st)) = true ->
  containers_run engine (count is_run (events st)) params = Raise e ->
  fst (Start engine st) = Raise e
  /\ self (snd (Start engine st)) = self st
  /\ count is_stop (events (snd (Stop engine (snd (Start engine st)))))
     = count is_stop (events st)
  /\ count is_engine_call (events (snd (Stop engine (snd (Start engine st)))))
     = count is_engine_call (events (snd (Start engine st))).
Proof.
  intros path params Hc Hb Hr.
  rewrite Start_run, Hc, Hb. fold path. fold params. cbv zeta.
  fold path. fold params. rewrite Hr.
  rewrite Stop_run. simpl. rewrite Hc. simpl. repeat split.
Qed.

(** X5: a runner that has been made and started, but has not waited for the
    container to run, has no endpoint: [GetEndpoint] raises an assertion
    error, whatever [Start] did. *)
Theorem GetEndpoint_before_running
    (model_path : string) (serving_binary : ServingBinary)
    (serving_spec : ServingSpec) (log : list Event) :
  let st := {| self := __init__ model_path serving_binary serving_spec;
               events := log |} in
  GetEndpoint (snd (Start engine st)) =
    (Raise (AssertionError
              "Endpoint is not yet created. You should call Start() first."),
     snd (Start engine st)).
Proof.
  intros st. rewrite Start_run. simpl.
  destruct (is_TensorFlowServing serving_binary); [|reflexivity].
  destruct (containers_run engine _ _); reflexivity.
Qed.

End Starting.

Lemma Start_runs_container_witness :
  exists st' : State,
    Start Scenario.engine_stops Scenario.fresh = (Return tt, st')
    /\ _container (self st') = Some (Scenario.container "created" ∅)
    /\ count is_engine_call (events st') = 1%nat.
Proof.
  destruct (Start_runs_container Scenario.engine_stops Scenario.fresh
              (Scenario.container "created" ∅) eq_refl eq_refl eq_refl)
    as (st' & E & _ & Hn & Hc & _).
  exists st'. repeat split; assumption.
Defined.

Lemma Start_twice_witness :
  Start Scenario.engine_stops Scenario.started =
    (Raise (AssertionError "You cannot start model server multiple times."),
     Scenario.started).
Proof.
  apply (Start_twice Scenario.engine_stops Scenario.fresh Scenario.started).
  reflexivity.
Defined.

Lemma Start_unsupported_binary_witness :
  Start Scenario.engine_stops Cases.fresh_other =
    (Raise (NotImplementedError "Unsupported serving binary TorchServe"),
     Cases.fresh_other).
Proof.
  apply (Start_unsupported_binary Scenario.engine_stops Cases.fresh_other);
    reflexivity.
Defined.

Lemma Start_launch_fails_witness :
  fst (Start Cases.engine_launch_fails Scenario.fresh)
    = Raise (APIError "No such image")
  /\ self (snd (Start Cases.engine_launch_fails Scenario.fresh))
     = self Scenario.fresh.
Proof.
  destruct (Start_launch_fails Cases.engine_launch_fails Scenario.fresh
              (APIError "No such image") eq_refl eq_refl eq_refl)
    as (E & Hs & _).
  split; assumption.
Defined.

(** ** What every call of [WaitUntilRunning] keeps *)

Section Waiting.

Variable engine : Engine.

(** One round of the loop on a runner with a container handle: what it may
    add to the log and what it leaves alone. *)
Lemma poll_cases (st : State) (c0 : Container) :
  _container (self st) = Some c0 ->
  exists (r : Result Flow) (st2 : State),
    poll engine st = (r, st2)
    /\ _model_path (self st2) = _model_path (self st)
    /\ _serving_binary (self st2) = _serving_binary (self st)
    /\ _serving_spec (self st2) = _serving_spec (self st)
    /\ _docker (self st2) = _docker (self st)
    /\ (exists c', _container (self st2) = Some c')
    /\ match r with
       | Return Continue =>
           events st2
             = EvSleep _POLLING_INTERVAL_SEC :: EvReload :: events st
           /\ _endpoint (self st2) = _endpoint (self st)
       | Return Returned => events st2 = EvReload :: events st
       | Raise _ =>
           events st2 = EvReload :: events st
           /\ _endpoint (self st2) = _endpoint (self st)
       end.
Proof.
  intros Hc.
  destruct (container_reload engine (count is_reload (events st)))
    as [c|e] eqn:Hr.
  - rewrite (poll_reloaded engine st c0 c Hc Hr).
    destruct (String.eqb (status c) "created");
      [|destruct (String.eqb (status c) "running");
        [destruct (_find_host_port (ports c) _)|]];
      eexists; eexists; (split; [reflexivity|]); simpl; eauto 10.
  - rewrite (poll_reload_raises engine st c0 e Hc Hr).
    eexists; eexists; (split; [reflexivity|]); simpl; eauto 10.
Qed.

(** The shape of every finished call: some rounds that saw [created], and
    then either a reading of the clock at or after the deadline, or one more
    round that ended the call. *)
Lemma WaitUntilRunning_inv (fuel : nat) :
  forall (deadline : Z) (st : State) (c0 : Container)
         (res : Result unit) (st' : State),
  _container (self st) = Some c0 ->
  WaitUntilRunning engine fuel deadline st = Some (res, st') ->
  (_model_path (self st') = _model_path (self st)
   /\ _serving_binary (self st') = _serving_binary (self st)
   /\ _serving_spec (self st') = _serving_spec (self st)
   /\ _docker (self st') = _docker (self st))
  /\ (exists c', _container (self st') = Some c')
  /\ exists n : nat,
       (n < fuel)%nat
       /\ match res with
          | Return _ =>
              events st' = EvReload :: EvTime :: created_rounds n (events st)
          | Raise e =>
              _endpoint (self st') = _endpoint (self st)
              /\ (events st'
                    = EvReload :: EvTime :: created_rounds n (events st)
                  \/ (e = DeadlineExceeded deadline_message
                      /\ events st' = EvTime :: created_rounds n (events st)))
          end.
Proof.
  induction fuel as [|fuel IH]; intros deadline st c0 res st' Hc;
    unfold WaitUntilRunning; rewrite Hc; [discriminate|].
  cbn [while_loop]. rewrite before_run.
  destruct (_ <? deadline).
  - set (st1 := {| self := self st; events := EvTime :: events st |}).
    destruct (poll_cases st1 c0 Hc)
      as (r & st2 & Hp & Hm & Hb & Hsp & Hd & [c2 Hc2] & Hr).
    unfold st1 in *. clear st1. simpl in Hm, Hb, Hsp, Hd, Hr.
    rewrite Hp. destruct r as [[|]|e].
    + destruct Hr as [Hev He]. intros H.
      assert (H' : WaitUntilRunning engine fuel deadline st2 = Some (res, st'))
        by (unfold WaitUntilRunning; rewrite Hc2; exact H).
      destruct (IH deadline st2 c2 res st' Hc2 H')
        as ((Hm' & Hb' & Hsp' & Hd') & Hc' & n & Hn & Hres).
      split; [repeat split; congruence|]. split; [exact Hc'|].
      exists (S n). split; [lia|].
      rewrite Hev in Hres. simpl in Hres.
      rewrite created_rounds_shift in Hres.
      destruct res as [u|e']; simpl; [exact Hres|].
      destruct Hres as [He' Hres]. split; [congruence|exact Hres].
    + intros [= <- <-].
      split; [repeat split; assumption|]. split; [eauto|].
      exists O. split; [lia|]. exact Hr.
    + intros [= <- <-]. destruct Hr as [Hev He].
      split; [repeat split; assumption|]. split; [eauto|].
      exists O. split; [lia|]. split; [exact He|]. left. exact Hev.
  - intros [= <- <-]. simpl.
    split; [repeat split|]. split; [eauto|].
    exists O. split; [lia|]. split; [reflexivity|]. right. split; reflexivity.
Qed.

(** X6: whatever comes of it, a call of [WaitUntilRunning] on a started
    runner only reads the clock, reloads the container and sleeps for the
    polling interval after each round that saw [created]: its log is a number
    of such rounds followed by one more reading of the clock and, unless the
    deadline was met there, one more reload.  It never runs a container, sends
    a stop request or closes the client. *)
Theorem WaitUntilRunning_log
    (fuel : nat) (deadline : Z) (st st' : State) (c0 : Container)
    (res : Result unit) :
  _container (self st) = Some c0 ->
  WaitUntilRunning engine fuel deadline st = Some (res, st') ->
  (exists n : nat,
     (n < fuel)%nat
     /\ (events st' = EvReload :: EvTime :: created_rounds n (events st)
         \/ (res = Raise (DeadlineExceeded deadline_message)
             /\ events st' = EvTime :: created_rounds n (events st))))
  /\ count is_run (events st') = count is_run (events st)
  /\ count is_stop (events st') = count is_stop (events st)
  /\ count is_close (events st') = count is_close (events st).
Proof.
  intros Hc H.
  destruct (WaitUntilRunning_inv fuel deadline st c0 res st' Hc H)
    as (_ & _ & n & Hn & Hres).
  assert (Hev : events st' = EvReload :: EvTime :: created_rounds n (events st)
                \/ (res = Raise (DeadlineExceeded deadline_message)
                    /\ events st' = EvTime :: created_rounds n (events st))).
  { destruct res as [u|e]; [left; exact Hres|].
    destruct Hres as [_ [Hev|[-> Hev]]]; [left|right]; auto. }
  split; [exists n; auto|].
  destruct Hev as [Hev|[_ Hev]]; rewrite Hev; simpl;
    rewrite !count_created_rounds; simpl; lia.
Qed.

(** X7: whenever [WaitUntilRunning] raises, for whatever reason, the endpoint
    of the runner is what it was before the call. *)
Theorem WaitUntilRunning_failure_keeps_endpoint
    (fuel : nat) (deadline : Z) (st st' : State) (e : Exn) :
  WaitUntilRunning engine fuel deadline st = Some (Raise e, st') ->
  _endpoint (self st') = _endpoint (self st).
Proof.
  intros H. destruct (_container (self st)) as [c0|] eqn:Hc.
  - destruct (WaitUntilRunning_inv fuel deadline st c0 _ st' Hc H)
      as (_ & _ & n & _ & He & _).
    exact He.
  - unfold WaitUntilRunning in H. rewrite Hc in H.
    now injection H as _ <-.
Qed.

(** X8: [WaitUntilRunning] never drops the container handle and never
    touches the model path, the serving binary, the serving spec or the
    client of the runner, however the call ends. *)
Theorem WaitUntilRunning_keeps_handle
    (fuel : nat) (deadline : Z) (st st' : State) (res : Result unit) :
  WaitUntilRunning engine fuel deadline st = Some (res, st') ->
  _model_path (self st') = _model_path (self st)
  /\ _serving_binary (self st') = _serving_binary (self st)
  /\ _serving_spec (self st') = _serving_spec (self st)
  /\ _docker (self st') = _docker (self st)
  /\ (is_Some (_container (self st)) <-> is_Some (_container (self st'))).
Proof.
  intros H. destruct (_container (self st)) as [c0|] eqn:Hc.
  - destruct (WaitUntilRunning_inv fuel deadline st c0 _ st' Hc H)
      as ((Hm & Hb & Hsp & Hd) & [c' Hc'] & _).
    rewrite Hc'. repeat split; eauto.
  - unfold WaitUntilRunning in H. rewrite Hc in H.
    injection H as _ <-. rewrite Hc. repeat split; auto.
Qed.

(** X9: on a started runner, if the clock is at or after the deadline at its
    [N]-th reading from the start of the call, then [WaitUntilRunning] comes
    to an end, whatever the engine answers, after at most [N] reloads. *)
Theorem WaitUntilRunning_terminates (N : nat) :
  forall (deadline : Z) (st : State) (c0 : Container),
  _container (self st) = Some c0 ->
  deadline <= time_time engine (count is_time (events st) + N) ->
  exists (res : Result unit) (st' : State),
    WaitUntilRunning engine (S N) deadline st = Some (res, st')
    /\ (count is_reload (events st')
        <= count is_reload (events st) + N)%nat.
Proof.
  induction N as [|N IH]; intros deadline st c0 Hc Ht;
    unfold WaitUntilRunning; rewrite Hc; cbn [while_loop];
    rewrite before_run.
  - rewrite Nat.add_0_r in Ht. apply Z.ltb_ge in Ht. rewrite Ht.
    eexists; eexists. split; [reflexivity|]. simpl. lia.
  - destruct (_ <? deadline).
    + set (st1 := {| self := self st; events := EvTime :: events st |}).
      destruct (poll_cases st1 c0 Hc)
        as (r & st2 & Hp & _ & _ & _ & _ & [c2 Hc2] & Hr).
      unfold st1 in *. clear st1. simpl in Hr.
      rewrite Hp. destruct r as [[|]|e].
      * destruct Hr as [Hev _].
        destruct (IH deadline st2 c2 Hc2) as (res & st' & E & Hn).
        { rewrite Hev. simpl.
          now replace (S (count is_time (events st) + N))
            with (count is_time (events st) + S N)%nat by lia. }
        unfold WaitUntilRunning in E. rewrite Hc2 in E.
        exists res, st'. split; [exact E|].
        rewrite Hev in Hn. simpl in Hn. lia.
      * eexists; eexists. split; [reflexivity|]. rewrite Hr. simpl. lia.
      * eexists; eexists. split; [reflexivity|].
        destruct Hr as [-> _]. simpl. lia.
    + eexists; eexists. split; [reflexivity|]. simpl. lia.
Qed.

End Waiting.

(** ** How a call of [WaitUntilRunning] ends *)

Section Rounds.

Variable engine : Engine.

Lemma count_after_rounds (p : Event -> bool) (n : nat) (st st' : State) :
  events st' = created_rounds n (events st) ->
  p (EvSleep _POLLING_INTERVAL_SEC) = false ->
  count p (events st')
  = (count p (events st) + n * count p [EvReload; EvTime])%nat.
Proof.
  intros -> Hp. rewrite count_created_rounds. simpl. rewrite Hp. lia.
Qed.

(** After [n] rounds that saw [created], a reload that fails ends the call:
    a container that is not found aborts the job, any other error is passed
    on as it is. *)
Lemma WaitUntilRunning_reload_raises
    (n fuel : nat) (deadline : Z) (st : State) (c0 : Container) (e : Exn) :
  _container (self st) = Some c0 ->
  (forall i, (i < n)%nat ->
     exists ci, container_reload engine (count is_reload (events st) + i)
                = Return ci /\ status ci = "created") ->
  (forall i, (i <= n)%nat ->
     time_time engine (count is_time (events st) + i) < deadline) ->
  container_reload engine (count is_reload (events st) + n) = Raise e ->
  (n < fuel)%nat ->
  exists st' : State,
    WaitUntilRunning engine fuel deadline st =
      Some (Raise match e with
                  | NotFound _ =>
                      JobAborted
                        "Container not found. Possibly removed after the job has been aborted."
                  | _ => e
                  end, st')
    /\ events st' = EvReload :: EvTime :: created_rounds n (events st).
Proof.
  intros Hc Hre Htm Hr Hfuel.
  destruct (WaitUntilRunning_created_rounds engine n (fuel - n) deadline st c0
              Hc Hre) as (st1 & c1 & E & Hev & Hc1 & _).
  { intros i Hi. apply Htm. lia. }
  replace (n + (fuel - n))%nat with fuel in E by lia.
  destruct (fuel - n)%nat as [|f] eqn:Ef; [lia|].
  rewrite E. unfold WaitUntilRunning. rewrite Hc1.
  cbn [while_loop]. rewrite before_run.
  rewrite (count_after_rounds is_time n st st1 Hev eq_refl).
  replace (count is_time (events st) + n * count is_time [EvReload; EvTime])%nat
    with (count is_time (events st) + n)%nat by (simpl; lia).
  pose proof (Htm n (le_n n)) as Ht. apply Z.ltb_lt in Ht. rewrite Ht.
  rewrite (poll_reload_raises engine _ c1 e).
  - eexists. split; [reflexivity|]. simpl. now rewrite Hev.
  - exact Hc1.
  - simpl. rewrite (count_after_rounds is_reload n st st1 Hev eq_refl).
    replace (count is_reload (events st)
             + n * count is_reload [EvReload; EvTime])%nat
      with (count is_reload (events st) + n)%nat by (simpl; lia).
    exact Hr.
Qed.

(** X10: after a [Start] that raised on a runner without a container handle,
    [WaitUntilRunning] raises an assertion error at once: the clock is not
    read and no call reaches the engine. *)
Theorem WaitUntilRunning_after_failed_Start
    (fuel : nat) (deadline : Z) (st st1 : State) (e : Exn) :
  _container (self st) = None ->
  Start engine st = (Raise e, st1) ->
  WaitUntilRunning engine fuel deadline st1 =
    Some (Raise (AssertionError "container has not been started."), st1).
Proof.
  intros Hc. rewrite Start_run, Hc.
  destruct (is_TensorFlowServing _).
  - cbv zeta. destruct (containers_run engine _ _) as [c|e']; [discriminate|].
    intros [= _ <-]. unfold WaitUntilRunning. simpl. now rewrite Hc.
  - intros [= _ <-]. unfold WaitUntilRunning. now rewrite Hc.
Qed.

(** X11: on a started runner, when the engine no longer finds the container
    at a reload (after [n] rounds that saw [created] before the deadline),
    [WaitUntilRunning] raises [JobAborted] and that reload is the last thing
    it does: the reload is not tried again. *)
Theorem WaitUntilRunning_container_gone
    (n fuel : nat) (deadline : Z) (st : State) (c0 : Container)
    (msg : string) :
  _container (self st) = Some c0 ->
  (forall i, (i < n)%nat ->
     exists ci, container_reload engine (count is_reload (events st) + i)
                = Return ci /\ status ci = "created") ->
  (forall i, (i <= n)%nat ->
     time_time engine (count is_time (events st) + i) < deadline) ->
  container_reload engine (count is_reload (events st) + n)
    = Raise (NotFound msg) ->
  (n < fuel)%nat ->
  exists st' : State,
    WaitUntilRunning engine fuel deadline st =
      Some (Raise (JobAborted
                     "Container not found. Possibly removed after the job has been aborted."),
            st')
    /\ events st' = EvReload :: EvTime :: created_rounds n (events st).
Proof.
  intros Hc Hre Htm Hr Hfuel.
  exact (WaitUntilRunning_reload_raises n fuel deadline st c0 (NotFound msg)
           Hc Hre Htm Hr Hfuel).
Qed.

(** X12: on a started runner, an error of a reload other than the container
    not being found is raised by [WaitUntilRunning] as it is, and the reload
    is not tried again. *)
Theorem WaitUntilRunning_reload_error
    (n fuel : nat) (deadline : Z) (st : State) (c0 : Container) (e : Exn) :
  _container (self st) = Some c0 ->
  (forall i, (i < n)%nat ->
     exists ci, container_reload engine (count is_reload (events st) + i)
                = Return ci /\ status ci = "created") ->
  (forall i, (i <= n)%nat ->
     time_time engine (count is_time (events st) + i) < deadline) ->
  container_reload engine (count is_reload (events st) + n) = Raise e ->
  (forall msg, e <> NotFound msg) ->
  (n < fuel)%nat ->
  exists st' : State,
    WaitUntilRunning engine fuel deadline st = Some (Raise e, st')
    /\ events st' = EvReload :: EvTime :: created_rounds n (events st).
Proof.
  intros Hc Hre Htm Hr Hne Hfuel.
  destruct (WaitUntilRunning_reload_raises n fuel deadline st c0 e
              Hc Hre Htm Hr Hfuel) as (st' & E & Hev).
  exists st'. split; [|exact Hev].
  rewrite E. destruct e; try reflexivity.
  now destruct (Hne msg).
Qed.

(** X13: on a started runner, when the container is seen as [created] in each
    of [n] rounds before the deadline and the clock then reads the deadline or
    later, [WaitUntilRunning] raises [DeadlineExceeded] after exactly [n]
    reloads, each followed by a sleep of one polling interval. *)
Theorem WaitUntilRunning_created_until_deadline
    (n fuel : nat) (deadline : Z) (st : State) (c0 : Container) :
  _container (self st) = Some c0 ->
  (forall i, (i < n)%nat ->
     exists ci, container_reload engine (count is_reload (events st) + i)
                = Return ci /\ status ci = "created") ->
  (forall i, (i < n)%nat ->
     time_time engine (count is_time (events st) + i) < deadline) ->
  deadline <= time_time engine (count is_time (events st) + n) ->
  (n < fuel)%nat ->
  exists st' : State,
    WaitUntilRunning engine fuel deadline st =
      Some (Raise (DeadlineExceeded deadline_message), st')
    /\ events st' = EvTime :: created_rounds n (events st)
    /\ count is_reload (events st') = (count is_reload (events st) + n)%nat
    /\ _endpoint (self st') = _endpoint (self st).
Proof.
  intros Hc Hre Htm Ht Hfuel.
  destruct (WaitUntilRunning_created_rounds engine n (fuel - n) deadline st c0
              Hc Hre Htm) as (st1 & c1 & E & Hev & Hc1 & _ & _ & He).
  replace (n + (fuel - n))%nat with fuel in E by lia.
  destruct (fuel - n)%nat as [|f] eqn:Ef; [lia|].
  rewrite E. unfold WaitUntilRunning. rewrite Hc1.
  cbn [while_loop]. rewrite before_run.
  rewrite (count_after_rounds is_time n st st1 Hev eq_refl).
  replace (count is_time (events st) + n * count is_time [EvReload; EvTime])%nat
    with (count is_time (events st) + n)%nat by (simpl; lia).
  apply Z.ltb_ge in Ht. rewrite Ht.
  eexists. split; [reflexivity|]. simpl. rewrite Hev.
  repeat split; [|exact He].
  rewrite count_created_rounds. simpl. lia.
Qed.

End Rounds.

Section Outcomes.

Variable engine : Engine.

(** X14: on a started runner, when the container is seen running but the
    declared container port has no binding (its key is absent, or bound to
    [None] or to an empty list), [WaitUntilRunning] raises the error of the
    port resolution, with the port and the mapping in it, and the endpoint is
    left as it was. *)
Theorem WaitUntilRunning_port_not_found
    (n fuel : nat) (deadline : Z) (st : State) (c0 c : Container) :
  let port := container_port (_serving_binary (self st)) in
  _container (self st) = Some c0 ->
  (forall i, (i < n)%nat ->
     exists ci, container_reload engine (count is_reload (events st) + i)
                = Return ci /\ status ci = "created") ->
  (forall i, (i <= n)%nat ->
     time_time engine (count is_time (events st) + i) < deadline) ->
  container_reload engine (count is_reload (events st) + n) = Return c ->
  status c = "running" ->
  (ports c !! port_key port = None
   \/ ports c !! port_key port = Some PyNone
   \/ ports c !! port_key port = Some (PyList [])) ->
  (n < fuel)%nat ->
  exists st' : State,
    WaitUntilRunning engine fuel deadline st
      = Some (Raise (PortNotFound port (ports c)), st')
    /\ _endpoint (self st') = _endpoint (self st)
    /\ events st' = EvReload :: EvTime :: created_rounds n (events st).
Proof.
  intros port Hc Hre Htm Hr Hs Hl Hfuel.
  destruct (WaitUntilRunning_last_round engine n fuel deadline st c0 c
              Hc Hre Htm Hr) as (st1 & Hev & _ & _ & He & E);
    [now rewrite Hs|assumption|].
  assert (Hf : _find_host_port (ports c) port
               = Raise (PortNotFound port (ports c))).
  { rewrite find_host_port_cases. unfold dict_get.
    destruct Hl as [->|[->| ->]]; reflexivity. }
  fold port in E. rewrite Hs, Hf in E. simpl in E.
  eexists. split; [exact E|]. simpl. rewrite Hev. auto.
Qed.

(** X15: on a started runner, a reload that reports any status other than
    [created] and [running], known to docker or not, makes
    [WaitUntilRunning] raise [JobAborted] with that status in the message;
    the comparison is on the exact string. *)
Theorem WaitUntilRunning_other_status
    (n fuel : nat) (deadline : Z) (st : State) (c0 c : Container) :
  _container (self st) = Some c0 ->
  (forall i, (i < n)%nat ->
     exists ci, container_reload engine (count is_reload (events st) + i)
                = Return ci /\ status ci = "created") ->
  (forall i, (i <= n)%nat ->
     time_time engine (count is_time (events st) + i) < deadline) ->
  container_reload engine (count is_reload (events st) + n) = Return c ->
  status c <> "created" ->
  status c <> "running" ->
  (n < fuel)%nat ->
  exists st' : State,
    WaitUntilRunning engine fuel deadline st =
      Some (Raise (JobAborted ("Job has been aborted (container status="
                                 +:+ status c +:+ ")")), st')
    /\ _endpoint (self st') = _endpoint (self st)
    /\ events st' = EvReload :: EvTime :: created_rounds n (events st).
Proof.
  intros Hc Hre Htm Hr Hs1 Hs2 Hfuel.
  apply String.eqb_neq in Hs1, Hs2.
  destruct (WaitUntilRunning_last_round engine n fuel deadline st c0 c
              Hc Hre Htm Hr Hs1 Hfuel) as (st1 & Hev & _ & _ & He & E).
  rewrite Hs2 in E.
  eexists. split; [exact E|]. simpl. rewrite Hev. auto.
Qed.

(** X16: on a started runner, when the container is seen running after [n]
    rounds that saw [created], with the declared container port bound to a
    non-empty list of records, [WaitUntilRunning] returns and [GetEndpoint]
    then returns ["localhost:"] followed by the host port of the first record,
    any number of times: [GetEndpoint] changes nothing. *)
Theorem WaitUntilRunning_ready
    (n fuel : nat) (deadline : Z) (st : State) (c0 c : Container)
    (b : HostBinding) (bs : list HostBinding) :
  _container (self st) = Some c0 ->
  (forall i, (i < n)%nat ->
     exists ci, container_reload engine (count is_reload (events st) + i)
                = Return ci /\ status ci = "created") ->
  (forall i, (i <= n)%nat ->
     time_time engine (count is_time (events st) + i) < deadline) ->
  container_reload engine (count is_reload (events st) + n) = Return c ->
  status c = "running" ->
  ports c !! port_key (container_port (_serving_binary (self st)))
    = Some (PyList (b :: bs)) ->
  (n < fuel)%nat ->
  exists st' : State,
    WaitUntilRunning engine fuel deadline st = Some (Return tt, st')
    /\ events st' = EvReload :: EvTime :: created_rounds n (events st)
    /\ _container (self st') = Some c
    /\ GetEndpoint st'
       = (Return ("localhost:" +:+ format_opt (b !! "HostPort")), st')
    /\ GetEndpoint (snd (GetEndpoint st'))
       = (Return ("localhost:" +:+ format_opt (b !! "HostPort")), st').
Proof.
  intros Hc Hre Htm Hr Hs Hl Hfuel.
  destruct (WaitUntilRunning_last_round engine n fuel deadline st c0 c
              Hc Hre Htm Hr) as (st1 & Hev & _ & _ & _ & E);
    [now rewrite Hs|assumption|].
  assert (Hf : _find_host_port (ports c)
                 (container_port (_serving_binary (self st)))
               = Return (b !! "HostPort")).
  { rewrite find_host_port_cases. now rewrite (dict_get_Some _ _ _ Hl). }
  rewrite Hs, Hf in E. simpl in E.
  eexists. split; [exact E|]. simpl. rewrite Hev. repeat split.
Qed.

End Outcomes.

(** ** Stopping a runner *)

Section StoppingMore.

Variable engine : Engine.

(** X17: on a runner without a container handle, be it new or left so by a
    [Start] that raised, [Stop] sends nothing to the engine: it closes the
    client, and that is all it does; its outcome is that of the closing. *)
Theorem Stop_not_started (st : State) :
  _container (self st) = None ->
  Stop engine st =
    (client_close engine (count is_close (events st)),
     {| self := self st; events := EvClose :: events st |})
  /\ count is_engine_call (events (snd (Stop engine st)))
     = count is_engine_call (events st).
Proof.
  intros Hc. rewrite Stop_run, Hc. split; reflexivity.
Qed.

(** X18: on a started runner whose stop request the engine accepts, [Stop]
    logs, sends one stop request and then closes the client, in that order,
    and its outcome is that of the closing.  The runner keeps its container
    handle and its endpoint: [Stop] clears neither. *)
Theorem Stop_started (st : State) (c : Container) :
  _container (self st) = Some c ->
  container_stop engine (count is_stop (events st)) = Return tt ->
  Stop engine st =
    (client_close engine (count is_close (events st)),
     {| self := self st;
        events := EvClose :: EvStop :: EvLog [LogLit "Stopping container."]
                    :: events st |})
  /\ _container (self (snd (Stop engine st))) = Some c
  /\ GetEndpoint (snd (Stop engine st))
     = (fst (GetEndpoint st), snd (Stop engine st)).
Proof.
  intros Hc Hs. rewrite Stop_run, Hc, Hs. simpl.
  repeat split; [assumption|].
  unfold GetEndpoint, get_self, raise, mbind, mret, Py_bind, Py_ret. simpl.
  destruct (_endpoint (self st)); reflexivity.
Qed.

End StoppingMore.

(** ** Host port resolution, continued *)

Lemma string_length_app (s t : string) :
  String.length (s +:+ t) = (String.length s + String.length t)%nat.
Proof. induction s as [|a s IH]; simpl; [reflexivity|now rewrite IH]. Qed.

Lemma string_app_inv_tail (t : string) :
  forall s1 s2 : string, s1 +:+ t = s2 +:+ t -> s1 = s2.
Proof.
  induction s1 as [|a s1 IH]; intros [|b s2] H.
  - reflexivity.
  - apply (f_equal String.length) in H.
    rewrite !string_length_app in H. simpl in H. lia.
  - apply (f_equal String.length) in H.
    rewrite !string_length_app in H. simpl in H. lia.
  - simpl in H. injection H as -> H. f_equal. now apply IH.
Qed.

(** Two container ports have the same key only if they are the same. *)
Lemma port_key_inj (p q : Z) : port_key p = port_key q -> p = q.
Proof.
  unfold port_key. intros H. apply string_app_inv_tail in H.
  now apply (inj pretty) in H.
Qed.

(** The resolution depends on the mapping only through the entry of the key
    of the port. *)
Lemma find_host_port_entry (m1 m2 : Ports) (p : Z) :
  m1 !! port_key p = m2 !! port_key p ->
  match _find_host_port m1 p with
  | Return hp => _find_host_port m2 p = Return hp
  | Raise _ => _find_host_port m2 p = Raise (PortNotFound p m2)
  end.
Proof.
  intros H. rewrite !find_host_port_cases. unfold dict_get. rewrite H.
  destruct (m2 !! port_key p) as [[|[|b bs]]|]; reflexivity.
Qed.

(** X19: an entry of the mapping under any key other than that of the
    requested port has no bearing on the resolution: adding or replacing it
    leaves the host port that is returned as it was, and a resolution that
    raised still raises. *)
Theorem find_host_port_other_key
    (mapping : Ports) (p : Z) (key : string) (v : PortBindings) :
  key <> port_key p ->
  match _find_host_port mapping p with
  | Return hp => _find_host_port (<[key := v]> mapping) p = Return hp
  | Raise _ =>
      _find_host_port (<[key := v]> mapping) p
        = Raise (PortNotFound p (<[key := v]> mapping))
  end.
Proof.
  intros Hne. apply find_host_port_entry.
  now rewrite lookup_insert_ne.
Qed.

(** X20: the bindings of a container port are never taken for those of
    another: the keys of two different ports differ, so that publishing port
    [q] does not change what port [p] resolves to, and a mapping that
    publishes [q] alone does not resolve [p]. *)
Theorem find_host_port_other_port
    (mapping : Ports) (p q : Z) (v : PortBindings) :
  p <> q ->
  port_key p <> port_key q
  /\ match _find_host_port mapping p with
     | Return hp => _find_host_port (<[port_key q := v]> mapping) p = Return hp
     | Raise _ =>
         _find_host_port (<[port_key q := v]> mapping) p
           = Raise (PortNotFound p (<[port_key q := v]> mapping))
     end
  /\ _find_host_port {[ port_key q := v ]} p
     = Raise (PortNotFound p {[ port_key q := v ]}).
Proof.
  intros Hne.
  assert (Hk : port_key q <> port_key p)
    by (intros H; apply Hne; symmetry; now apply port_key_inj).
  split; [congruence|]. split.
  - apply find_host_port_entry. now rewrite lookup_insert_ne.
  - rewrite find_host_port_cases. unfold dict_get.
    now rewrite lookup_singleton_ne.
Qed.

(** X21: publishing and resolving: once the key of port [p] is bound to a
    list whose first record has the host port [hp], port [p] resolves to
    [hp], whatever host address the record has, whatever records follow and
    whatever else the mapping holds. *)
Theorem find_host_port_published
    (mapping : Ports) (p : Z) (ip hp : string) (record : HostBinding)
    (bs : list HostBinding) :
  _find_host_port
    (<[port_key p :=
         PyList (<["HostIp" := ip]> (<["HostPort" := hp]> record) :: bs)]>
       mapping) p
  = Return (Some hp).
Proof.
  rewrite find_host_port_cases. unfold dict_get.
  rewrite lookup_insert_eq. simpl.
  rewrite lookup_insert_ne by discriminate.
  now rewrite lookup_insert_eq.
Qed.

(** ** The further properties at work *)

Lemma WaitUntilRunning_log_witness :
  exists (res : Result unit) (st' : State),
    WaitUntilRunning Scenario.engine_exited 5 100 Scenario.started
      = Some (res, st')
    /\ count is_run (events st') = count is_run (events Scenario.started)
    /\ count is_stop (events st') = count is_stop (events Scenario.started)
    /\ count is_close (events st') = count is_close (events Scenario.started).
Proof.
  eexists; eexists. split; [reflexivity|].
  refine (proj2 (WaitUntilRunning_log Scenario.engine_exited 5 100
                   Scenario.started _ (Scenario.container "created" ∅) _
                   _ _));
    reflexivity.
Defined.

Lemma WaitUntilRunning_failure_keeps_endpoint_witness :
  exists (e : Exn) (st' : State),
    WaitUntilRunning Cases.engine_gone 5 100 Scenario.started
      = Some (Raise e, st')
    /\ _endpoint (self st') = None.
Proof.
  eexists; eexists. split; [reflexivity|].
  refine (WaitUntilRunning_failure_keeps_endpoint Cases.engine_gone 5 100
            Scenario.started _ _ _).
  reflexivity.
Defined.

Lemma WaitUntilRunning_keeps_handle_witness :
  exists (res : Result unit) (st' : State),
    WaitUntilRunning (Scenario.engine_ready Scenario.grpc_ports) 5 100
      Scenario.started = Some (res, st')
    /\ _serving_binary (self st') = Scenario.tensorflow_serving
    /\ (is_Some (_container (self Scenario.started))
        <-> is_Some (_container (self st'))).
Proof.
  eexists; eexists. split; [reflexivity|].
  destruct (WaitUntilRunning_keeps_handle
              (Scenario.engine_ready Scenario.grpc_ports) 5 100
              Scenario.started _ _ eq_refl) as (_ & Hb & _ & _ & Hc).
  split; [exact Hb|exact Hc].
Defined.

Lemma WaitUntilRunning_terminates_witness :
  exists (res : Result unit) (st' : State),
    WaitUntilRunning Cases.engine_created_forever 4 3 Scenario.started
      = Some (res, st')
    /\ (count is_reload (events st') <= 3)%nat.
Proof.
  apply (WaitUntilRunning_terminates Cases.engine_created_forever 3 3
           Scenario.started (Scenario.container "created" ∅)).
  - reflexivity.
  - vm_compute. discriminate.
Defined.

Lemma WaitUntilRunning_after_failed_Start_witness :
  WaitUntilRunning Scenario.engine_stops 5 100 Cases.fresh_other =
    Some (Raise (AssertionError "container has not been started."),
          Cases.fresh_other).
Proof.
  apply (WaitUntilRunning_after_failed_Start Scenario.engine_stops 5 100
           Cases.fresh_other Cases.fresh_other
           (NotImplementedError "Unsupported serving binary TorchServe"));
    reflexivity.
Defined.

Lemma WaitUntilRunning_container_gone_witness :
  exists st' : State,
    WaitUntilRunning Cases.engine_gone 5 100 Scenario.started =
      Some (Raise (JobAborted
                     "Container not found. Possibly removed after the job has been aborted."),
            st')
    /\ events st'
       = EvReload :: EvTime :: created_rounds 1 (events Scenario.started).
Proof.
  apply (WaitUntilRunning_container_gone Cases.engine_gone 1 5 100
           Scenario.started (Scenario.container "created" ∅)
           "No such container").
  - reflexivity.
  - intros i Hi. destruct i as [|i]; [|lia].
    exists (Scenario.container "created" ∅). split; reflexivity.
  - intros i Hi. destruct i as [|[|i]]; [reflexivity|reflexivity|lia].
  - reflexivity.
  - lia.
Defined.

Lemma WaitUntilRunning_reload_error_witness :
  exists st' : State,
    WaitUntilRunning Cases.engine_reload_error 5 100 Scenario.started
      = Some (Raise (APIError "500 Server Error"), st')
    /\ events st'
       = EvReload :: EvTime :: created_rounds 1 (events Scenario.started).
Proof.
  apply (WaitUntilRunning_reload_error Cases.engine_reload_error 1 5 100
           Scenario.started (Scenario.container "created" ∅)
           (APIError "500 Server Error")).
  - reflexivity.
  - intros i Hi. destruct i as [|i]; [|lia].
    exists (Scenario.container "created" ∅). split; reflexivity.
  - intros i Hi. destruct i as [|[|i]]; [reflexivity|reflexivity|lia].
  - reflexivity.
  - discriminate.
  - lia.
Defined.

Lemma WaitUntilRunning_created_until_deadline_witness :
  exists st' : State,
    WaitUntilRunning Cases.engine_created_forever 5 2 Scenario.started =
      Some (Raise (DeadlineExceeded deadline_message), st')
    /\ events st' = EvTime :: created_rounds 2 (events Scenario.started)
    /\ count is_reload (events st') = 2%nat
    /\ _endpoint (self st') = None.
Proof.
  apply (WaitUntilRunning_created_until_deadline Cases.engine_created_forever
           2 5 2 Scenario.started (Scenario.container "created" ∅)).
  - reflexivity.
  - intros i Hi. exists (Scenario.container "created" ∅). split; reflexivity.
  - intros i Hi. destruct i as [|[|i]]; [reflexivity|reflexivity|lia].
  - vm_compute. discriminate.
  - lia.
Defined.

Lemma WaitUntilRunning_port_not_found_witness :
  exists st' : State,
    WaitUntilRunning (Scenario.engine_ready Scenario.unpublished) 5 100
      Scenario.started
      = Some (Raise (PortNotFound 8500 Scenario.unpublished), st')
    /\ _endpoint (self st') = None
    /\ events st'
       = EvReload :: EvTime :: created_rounds 2 (events Scenario.started).
Proof.
  apply (WaitUntilRunning_port_not_found
           (Scenario.engine_ready Scenario.unpublished) 2 5 100
           Scenario.started (Scenario.container "created" ∅)
           (Scenario.container "running" Scenario.unpublished)).
  - reflexivity.
  - intros i Hi. destruct i as [|[|i]]; [| |lia];
      exists (Scenario.container "created" ∅); split; reflexivity.
  - intros i Hi. destruct i as [|[|[|i]]]; [reflexivity..|lia].
  - reflexivity.
  - reflexivity.
  - right. left. reflexivity.
  - lia.
Defined.

Lemma WaitUntilRunning_other_status_witness :
  exists st' : State,
    WaitUntilRunning Cases.engine_capital_status 5 100 Scenario.started =
      Some (Raise (JobAborted "Job has been aborted (container status=Running)"),
            st')
    /\ _endpoint (self st') = None
    /\ events st'
       = EvReload :: EvTime :: created_rounds 1 (events Scenario.started).
Proof.
  apply (WaitUntilRunning_other_status Cases.engine_capital_status 1 5 100
           Scenario.started (Scenario.container "created" ∅)
           (Scenario.container "Running" Scenario.grpc_ports)).
  - reflexivity.
  - intros i Hi. destruct i as [|i]; [|lia].
    exists (Scenario.container "created" ∅). split; reflexivity.
  - intros i Hi. destruct i as [|[|i]]; [reflexivity|reflexivity|lia].
  - reflexivity.
  - discriminate.
  - discriminate.
  - lia.
Defined.

Lemma WaitUntilRunning_ready_witness :
  exists st' : State,
    WaitUntilRunning (Scenario.engine_ready Scenario.two_bindings) 5 100
      Scenario.started = Some (Return tt, st')
    /\ GetEndpoint st' = (Return "localhost:32769", st').
Proof.
  destruct (WaitUntilRunning_ready
              (Scenario.engine_ready Scenario.two_bindings) 2 5 100
              Scenario.started (Scenario.container "created" ∅)
              (Scenario.container "running" Scenario.two_bindings)
              {[ "HostIp" := "0.0.0.0"; "HostPort" := "32769" ]}
              [ {[ "HostIp" := "::"; "HostPort" := "32770" ]} ])
    as (st' & E & _ & _ & Hg & _).
  - reflexivity.
  - intros i Hi. destruct i as [|[|i]]; [| |lia];
      exists (Scenario.container "created" ∅); split; reflexivity.
  - intros i Hi. destruct i as [|[|[|i]]]; [reflexivity..|lia].
  - reflexivity.
  - reflexivity.
  - reflexivity.
  - lia.
  - exists st'. split; [exact E|exact Hg].
Defined.

Lemma Stop_not_started_witness :
  Stop Scenario.engine_stops Scenario.fresh =
    (Return tt, {| self := self Scenario.fresh; events := [EvClose] |}).
Proof.
  refine (proj1 (Stop_not_started Scenario.engine_stops Scenario.fresh _)).
  reflexivity.
Defined.

Lemma Stop_started_witness :
  _container (self (snd (Stop Scenario.engine_stops Scenario.started)))
    = Some (Scenario.container "created" ∅)
  /\ count is_stop (events (snd (Stop Scenario.engine_stops Scenario.started)))
     = 1%nat.
Proof.
  destruct (Stop_started Scenario.engine_stops Scenario.started
              (Scenario.container "created" ∅) eq_refl eq_refl)
    as (E & Hc & _).
  split; [exact Hc|]. rewrite E. reflexivity.
Defined.

Lemma find_host_port_other_key_witness :
  _find_host_port
    (<["8500/udp" := PyList [ {[ "HostPort" := "40000" ]} ]]>
       Scenario.grpc_ports) 8500
  = Return (Some "32769").
Proof.
  refine (find_host_port_other_key Scenario.grpc_ports 8500 "8500/udp"
            (PyList [ {[ "HostPort" := "40000" ]} ]) _).
  discriminate.
Defined.

Lemma find_host_port_other_port_witness :
  port_key 850 <> port_key 8500
  /\ _find_host_port {[ port_key 8500 := PyList [ {[ "HostPort" := "32769" ]} ] ]}
       850
     = Raise (PortNotFound 850
                {[ port_key 8500 := PyList [ {[ "HostPort" := "32769" ]} ] ]}).
Proof.
  destruct (find_host_port_other_port ∅ 850 8500
              (PyList [ {[ "HostPort" := "32769" ]} ]))
    as (Hk & _ & Hs).
  - discriminate.
  - split; [exact Hk|exact Hs].
Defined.

(** ** A whole validation *)

Section Lifecycle.

Variable engine : Engine.

(** X22: a whole session on a new runner with a TensorFlow Serving binary.
    When the engine runs the container, reports it as [created] [n] times and
    then as [running] with the declared port published, all before the
    deadline, and accepts the stop request, then [Start], [WaitUntilRunning],
    [GetEndpoint] and [Stop] all return, the endpoint is on [localhost] at the
    host port of the first binding, and the engine has been called [n + 3]
    times in all: one run, [n + 1] reloads and one stop. *)
Theorem session
    (model_path : string) (serving_binary : ServingBinary)
    (serving_spec : ServingSpec) (n fuel : nat) (deadline : Z)
    (c_run c : Container) (b : HostBinding) (bs : list HostBinding) :
  let st0 := {| self := __init__ model_path serving_binary serving_spec;
                events := [] |} in
  is_TensorFlowServing serving_binary = true ->
  containers_run engine 0
    (MakeDockerRunParams serving_binary model_path
       (os_path_isdir engine model_path)) = Return c_run ->
  (forall i, (i < n)%nat ->
     exists ci, container_reload engine i = Return ci
                /\ status ci = "created") ->
  (forall i, (i <= n)%nat -> time_time engine i < deadline) ->
  container_reload engine n = Return c ->
  status c = "running" ->
  ports c !! port_key (container_port serving_binary)
    = Some (PyList (b :: bs)) ->
  container_stop engine 0 = Return tt ->
  client_close engine 0 = Return tt ->
  (n < fuel)%nat ->
  exists st1 st2 st3 : State,
    Start engine st0 = (Return tt, st1)
    /\ WaitUntilRunning engine fuel deadline st1 = Some (Return tt, st2)
    /\ GetEndpoint st2
       = (Return ("localhost:" +:+ format_opt (b !! "HostPort")), st2)
    /\ Stop engine st2 = (Return tt, st3)
    /\ count is_run (events st3) = 1%nat
    /\ count is_reload (events st3) = S n
    /\ count is_stop (events st3) = 1%nat
    /\ count is_close (events st3) = 1%nat
    /\ count is_engine_call (events st3) = (n + 3)%nat.
Proof.
  intros st0 Hb Hrun Hre Htm Hr Hs Hl Hstop Hclose Hfuel.
  set (params := MakeDockerRunParams serving_binary model_path
                   (os_path_isdir engine model_path)) in *.
  set (st1 := {| self := set_container (Some c_run) (self st0);
                 events := [EvRun params;
                            EvLog [LogLit "Running container with parameter ";
                                   LogParams params];
                            EvIsDir model_path] |}).
  assert (E1 : Start engine st0 = (Return tt, st1)).
  { rewrite Start_run. simpl. rewrite Hb. cbv zeta. fold params.
    simpl. rewrite Hrun. reflexivity. }
  destruct (WaitUntilRunning_last_round engine n fuel deadline st1 c_run c
              eq_refl Hre Htm Hr) as (sw & Hev & _ & _ & _ & E2);
    [now rewrite Hs|assumption|].
  assert (Hf : _find_host_port (ports c) (container_port serving_binary)
               = Return (b !! "HostPort")).
  { rewrite find_host_port_cases. now rewrite (dict_get_Some _ _ _ Hl). }
  rewrite Hs in E2. simpl in E2. rewrite Hf in E2.
  match type of E2 with _ = Some (_, ?s) => set (st2 := s) in * end.
  assert (Hst : count is_stop (events sw) = O)
    by (rewrite Hev; simpl; rewrite count_created_rounds; simpl; lia).
  assert (Hcl : count is_close (events sw) = O)
    by (rewrite Hev; simpl; rewrite count_created_rounds; simpl; lia).
  assert (E4 : Stop engine st2 =
                 (Return tt,
                  {| self := self st2;
                     events := EvClose :: EvStop
                                 :: EvLog [LogLit "Stopping container."]
                                 :: events st2 |})).
  { rewrite Stop_run. unfold st2. simpl.
    rewrite Hst, Hcl, Hstop, Hclose. reflexivity. }
  exists st1, st2. eexists.
  split; [exact E1|]. split; [exact E2|]. split; [reflexivity|].
  split; [exact E4|].
  unfold st2. simpl. rewrite Hev. simpl.
  rewrite !count_created_rounds. simpl.
  repeat split; lia.
Qed.

End Lifecycle.

Lemma session_witness :
  exists st1 st2 st3 : State,
    Start (Scenario.engine_ready Scenario.two_bindings) Scenario.fresh
      = (Return tt, st1)
    /\ WaitUntilRunning (Scenario.engine_ready Scenario.two_bindings) 5 100 st1
       = Some (Return tt, st2)
    /\ GetEndpoint st2 = (Return "localhost:32769", st2)
    /\ Stop (Scenario.engine_ready Scenario.two_bindings) st2
       = (Return tt, st3)
    /\ count is_engine_call (events st3) = 5%nat.
Proof.
  destruct (session (Scenario.engine_ready Scenario.two_bindings)
              "/tmp/model" Scenario.tensorflow_serving
              {| local_docker := Scenario.config |} 2 5 100
              (Scenario.container "created" ∅)
              (Scenario.container "running" Scenario.two_bindings)
              {[ "HostIp" := "0.0.0.0"; "HostPort" := "32769" ]}
              [ {[ "HostIp" := "::"; "HostPort" := "32770" ]} ])
    as (st1 & st2 & st3 & E1 & E2 & E3 & E4 & _ & _ & _ & _ & Hn);
    try reflexivity.
  - intros i Hi. destruct i as [|[|i]]; [| |lia];
      exists (Scenario.container "created" ∅); split; reflexivity.
  - intros i Hi. destruct i as [|[|[|i]]]; [reflexivity..|lia].
  - lia.
  - exists st1, st2, st3. repeat split; assumption.
Defined.
